(** * InvoiceFlow AI backend: a shallow embedding of [main.py] and [schemas.py]

    The development follows the layout of the service:
    - [Py]       the Python built-ins and [os.path] helpers that [main.py] calls,
                 on ASCII text;
    - [Bson]     [bson.ObjectId] parsing and printing;
    - [Store]    the document store consumed by the handlers;
    - [User], [Invoice]  the pydantic models of [schemas.py];
    - [CreateUserRequest], [UpdateInvoiceRequest], [mock_ai_extract] and the
      handlers [create_user], [upload_invoice], [update_invoice] of [main.py];
    - the theorems about them. *)

From Stdlib Require Import ZArith QArith String Ascii List DecimalString DecimalPos DecimalZ.
From stdpp Require Import gmap strings list fin_maps.

Local Open Scope string_scope.
Local Open Scope Z_scope.

(** ** Python values and exceptions *)

(** A Python [float] is kept as the exact rational it denotes, in lowest
    terms ([Qred]), so that Leibniz equality is numeric equality.  CPython
    rounds a decimal literal to the nearest binary64; every amount the
    theorems below compute ([199.0], [250.5], [1.0], epoch seconds) is
    exactly representable, so no rounding is involved in them. *)
Inductive value : Type :=
  | VNone
  | VStr (s : string)
  | VBool (b : bool)
  | VInt (z : Z)
  | VFloat (q : Q).

#[global] Instance Q_eq_dec : EqDecision Q.
Proof. solve_decision. Defined.

#[global] Instance value_eq_dec : EqDecision value.
Proof. solve_decision. Defined.

(** A document (a Python [dict] with string keys, a BSON document). *)
Abbreviation document := (gmap string value).

(** Exceptions deriving from [Exception].  [HTTPException] is the only class
    the handlers raise themselves; [Raised cls msg] stands for any other
    exception, by class name and message. *)
Inductive pyexn : Type :=
  | HTTPException (status_code : Z) (detail : string)
  | Raised (cls : string) (msg : string).

(** The status line FastAPI answers with: the code of an [HTTPException],
    500 for any other exception that leaves a handler, 200 otherwise. *)
Definition http_status {A : Type} (r : pyexn + A) : Z :=
  match r with
  | inr _ => 200
  | inl (HTTPException code _) => code
  | inl (Raised _ _) => 500
  end.

Module Py.

(** *** [str] methods, on ASCII text

    The model covers text made of ASCII characters (codes 0 to 127): on it
    the functions of this module are those of Python.  The classes of
    characters ([isdigit], [isalpha], upper and lower case) are the ASCII
    ones.  Python has digits and letters above 127 too (the superscript two,
    U+00B2, passes [isdigit]; the accented letters pass [isalpha] and have
    an upper and a lower case); a character of code 128 or more is no digit,
    no letter and caseless here.  A statement whose truth depends on the
    class or the case of such characters carries the hypothesis that the
    text is ASCII ([is_ascii] below).  The other functions ([len],
    [replace], [split], [rfind], slices, [zfill]) do not look at classes. *)

Definition is_digit_char (c : ascii) : bool :=
  (48 <=? nat_of_ascii c)%nat && (nat_of_ascii c <=? 57)%nat.

Definition is_upper_char (c : ascii) : bool :=
  (65 <=? nat_of_ascii c)%nat && (nat_of_ascii c <=? 90)%nat.

Definition is_lower_char (c : ascii) : bool :=
  (97 <=? nat_of_ascii c)%nat && (nat_of_ascii c <=? 122)%nat.

Definition is_alpha_char (c : ascii) : bool :=
  is_upper_char c || is_lower_char c.

Definition upper_char (c : ascii) : ascii :=
  if is_lower_char c then ascii_of_nat (nat_of_ascii c - 32) else c.

Definition lower_char (c : ascii) : ascii :=
  if is_upper_char c then ascii_of_nat (nat_of_ascii c + 32) else c.

Fixpoint all_chars (f : ascii -> bool) (s : string) : bool :=
  match s with
  | EmptyString => true
  | String c r => f c && all_chars f r
  end.

Fixpoint map_chars (f : ascii -> ascii) (s : string) : string :=
  match s with
  | EmptyString => EmptyString
  | String c r => String (f c) (map_chars f r)
  end.

Fixpoint len (s : string) : nat :=
  match s with
  | EmptyString => O
  | String _ r => S (len r)
  end.

(** [s.isdigit()], [s.isalpha()]: every character in the class and at
    least one character. *)
Definition isdigit (s : string) : bool :=
  (0 <? len s)%nat && all_chars is_digit_char s.

Definition isalpha (s : string) : bool :=
  (0 <? len s)%nat && all_chars is_alpha_char s.

(** [s.capitalize()]: first character upper-cased, the rest lower-cased. *)
Definition capitalize (s : string) : string :=
  match s with
  | EmptyString => EmptyString
  | String c r => String (upper_char c) (map_chars lower_char r)
  end.

(** [s.replace(old, new, count)] for a one-character [old]; [count = None]
    is the two-argument call, which replaces every occurrence. *)
Fixpoint replace (old : ascii) (new : string) (count : option nat) (s : string)
  : string :=
  match s with
  | EmptyString => EmptyString
  | String c r =>
      if Ascii.eqb c old then
        match count with
        | Some O => s
        | Some (S n) => new +:+ replace old new (Some n) r
        | None => new +:+ replace old new None r
        end
      else String c (replace old new count r)
  end.

(** [s.split(sep)] for a one-character [sep]: never empty, and an empty
    token between two adjacent separators. *)
Fixpoint split (sep : ascii) (s : string) : list string :=
  match s with
  | EmptyString => [EmptyString]
  | String c r =>
      if Ascii.eqb c sep then EmptyString :: split sep r
      else match split sep r with
           | tok :: toks => String c tok :: toks
           | [] => [String c EmptyString]
           end
  end.

(** [s[i] == c], for an index the caller has checked to be in range. *)
Definition char_at_is (s : string) (i : nat) (c : ascii) : bool :=
  match String.get i s with
  | Some a => Ascii.eqb a c
  | None => false
  end.

(** [s.rfind(c)]: the highest index of [c], [-1] when it does not occur. *)
Fixpoint rfind_from (c : ascii) (s : string) (i last : Z) : Z :=
  match s with
  | EmptyString => last
  | String a r => rfind_from c r (i + 1) (if Ascii.eqb a c then i else last)
  end.

Definition rfind (c : ascii) (s : string) : Z := rfind_from c s 0 (-1).

(** The slices [s[i:]] and [s[:i]] for [0 <= i]. *)
Fixpoint drop_chars (n : nat) (s : string) : string :=
  match n, s with
  | O, _ => s
  | S n', String _ r => drop_chars n' r
  | S _, EmptyString => EmptyString
  end.

Fixpoint take_chars (n : nat) (s : string) : string :=
  match n, s with
  | O, _ => EmptyString
  | S n', String c r => String c (take_chars n' r)
  | S _, EmptyString => EmptyString
  end.

Definition slice_from (i : Z) (s : string) : string := drop_chars (Z.to_nat i) s.
Definition slice_to (i : Z) (s : string) : string := take_chars (Z.to_nat i) s.

(** [s.zfill(n)] for a string without sign. *)
Definition zfill (n : nat) (s : string) : string :=
  Nat.iter (n - len s) (String "0") s.

(** [str(z)] for an [int]. *)
Definition str_of_int (z : Z) : string := NilZero.string_of_int (Z.to_int z).

(** *** [repr(s)]

    The text between quotes: single ones, unless the text has a single
    quote and no double one.  A backslash goes before the backslash and
    before the quote in use; tab, line feed and carriage return are written
    [\t], [\n], [\r]; any other character that is not printable is written
    [\xhh].  A code of 128 or more is read as the Latin-1 character. *)
Definition backslash : ascii := ascii_of_nat 92.
Definition double_quote : ascii := ascii_of_nat 34.

Definition has_char (c : ascii) (s : string) : bool :=
  negb (all_chars (fun x => negb (Ascii.eqb x c)) s).

Definition is_printable_char (c : ascii) : bool :=
  let n := nat_of_ascii c in
  ((32 <=? n)%nat && (n <=? 126)%nat) || ((161 <=? n)%nat && negb (n =? 173)%nat).

Definition hex_digit_char (n : nat) : ascii :=
  if (n <? 10)%nat then ascii_of_nat (48 + n) else ascii_of_nat (87 + n).

Definition repr_char (quote c : ascii) : string :=
  let n := nat_of_ascii c in
  if Ascii.eqb c quote || Ascii.eqb c backslash then
    String backslash (String c EmptyString)
  else if (n =? 9)%nat then String backslash "t"
  else if (n =? 10)%nat then String backslash "n"
  else if (n =? 13)%nat then String backslash "r"
  else if is_printable_char c then String c EmptyString
  else String backslash
         (String "x" (String (hex_digit_char (n / 16))
                        (String (hex_digit_char (n mod 16)) EmptyString))).

Fixpoint repr_chars (quote : ascii) (s : string) : string :=
  match s with
  | EmptyString => String quote EmptyString
  | String c r => repr_char quote c +:+ repr_chars quote r
  end.

Definition repr (s : string) : string :=
  let quote :=
    if has_char "'" s && negb (has_char double_quote s) then double_quote else "'"%char in
  String quote (repr_chars quote s).

(** *** [float(s)]

    [main.py] calls [float] only on a token that is made of decimal digits
    with at most one ["."].  On that grammar the model gives the value of
    the decimal, exactly; anything else is a [ValueError] here.  CPython
    gives the binary64 nearest to that value ([inf] beyond the range of
    binary64), so the two agree where the decimal is a binary64 itself
    (every integer below [2^53], [250.5], [199.0]) and in the sign of the
    result; the statements below that name an amount stay within that. *)
Fixpoint cut_at (c : ascii) (s : string) : string * string :=
  match s with
  | EmptyString => (EmptyString, EmptyString)
  | String a r =>
      if Ascii.eqb a c then (EmptyString, r)
      else let '(h, t) := cut_at c r in (String a h, t)
  end.

Definition pow10 (k : nat) : positive := Nat.iter k (Pos.mul 10) 1%positive.

Definition float (s : string) : pyexn + Q :=
  let '(ip, fp) := cut_at "." s in
  if isdigit (ip +:+ fp) then
    match NilEmpty.uint_of_string (ip +:+ fp) with
    | Some d => inr (Qred (Z.of_uint d # pow10 (len fp)))
    | None => inl (Raised "ValueError" ("could not convert string to float: " +:+ s))
    end
  else inl (Raised "ValueError" ("could not convert string to float: " +:+ s)).

(** *** [os.path] (posixpath) *)

(** [i = p.rfind('/') + 1; return p[i:]] *)
Definition basename (p : string) : string := slice_from (rfind "/" p + 1) p.

(** [genericpath._splitext] with [sep = '/'], no [altsep], [extsep = '.']:
    the extension starts at the last dot of the last component, unless only
    dots precede it there. *)
Fixpoint has_non_dot_between (p : string) (i : nat) (n : nat) : bool :=
  match n with
  | O => false
  | S n' => negb (char_at_is p i ".") || has_non_dot_between p (S i) n'
  end.

Definition splitext (p : string) : string * string :=
  let sepIndex := rfind "/" p in
  let dotIndex := rfind "." p in
  if (sepIndex <? dotIndex)
     && has_non_dot_between p (Z.to_nat (sepIndex + 1))
                            (Z.to_nat (dotIndex - (sepIndex + 1)))
  then (slice_to dotIndex p, slice_from dotIndex p)
  else (p, EmptyString).

(** [os.path.join(a, b)] for two components. *)
Definition join (a b : string) : string :=
  if char_at_is b 0 "/" then b
  else if (len a =? 0)%nat || char_at_is a (len a - 1) "/" then a +:+ b
  else a +:+ "/" +:+ b.

End Py.


(** [str(e)]: starlette's [HTTPException.__str__] is
    [f"{status_code}: {detail}"]; other exceptions print their message. *)
Definition str_exn (e : pyexn) : string :=
  match e with
  | HTTPException code detail => Py.str_of_int code +:+ ": " +:+ detail
  | Raised _ msg => msg
  end.

(** ** [bson.ObjectId] *)

Module Bson.

(** An ObjectId is twelve bytes, kept as the number they spell. *)
Definition hex_char (n : N) : ascii :=
  if (n <? 10)%N then ascii_of_N (48 + n) else ascii_of_N (87 + n).

Definition hex_value (c : ascii) : option N :=
  let n := N_of_ascii c in
  if (48 <=? n)%N && (n <=? 57)%N then Some (n - 48)%N
  else if (97 <=? n)%N && (n <=? 102)%N then Some (n - 87)%N
  else if (65 <=? n)%N && (n <=? 70)%N then Some (n - 55)%N
  else None.

Fixpoint hex_digits (k : nat) (n : N) (acc : string) : string :=
  match k with
  | O => acc
  | S k' => hex_digits k' (n / 16)%N (String (hex_char (n mod 16)%N) acc)
  end.

(** [str(oid)]: 24 lower-case hexadecimal digits. *)
Definition str (o : N) : string := hex_digits 24 o EmptyString.

Fixpoint parse_hex (s : string) (acc : N) : option N :=
  match s with
  | EmptyString => Some acc
  | String c r =>
      match hex_value c with
      | Some v => parse_hex r (16 * acc + v)%N
      | None => None
      end
  end.

(** The message of [bson.errors.InvalidId]: ["%r is not a valid ObjectId, it
    must be a 12-byte input or a 24-character hex string" % oid]. *)
Definition invalid_id (s : string) : pyexn :=
  Raised "InvalidId"
    (Py.repr s +:+
     " is not a valid ObjectId, it must be a 12-byte input or a 24-character hex string").

(** [ObjectId(s)] for a [str] argument.  [bson] takes a [str] of length 24
    through [bytes.fromhex] and raises [InvalidId] for any other length and
    when [bytes.fromhex] raises.  On 24 hexadecimal digits the result is the
    twelve bytes they spell.  [bytes.fromhex] also skips ASCII white space
    before a pair of digits, so that a [str] of length 24 with white space
    in it can give fewer than twelve bytes; identifiers of that kind are not
    values of this model, which answers [InvalidId] for every [str] of
    length 24 that is not 24 hexadecimal digits.  The statements below about
    an identifier that is taken assume [ObjectId s = inr o]; those about one
    that is refused assume a length other than 24. *)
Definition ObjectId (s : string) : pyexn + N :=
  if (Py.len s =? 24)%nat then
    match parse_hex s 0%N with
    | Some o => inr o
    | None => inl (invalid_id s)
    end
  else inl (invalid_id s).

End Bson.

(** ** [datetime.now()] *)

(** One reading of the clock: [int(dt.timestamp())] and the local calendar
    date of [dt].  Every call of [datetime.now()] in [main.py] is a reading
    of its own, passed to the function that makes the call. *)
Record datetime : Type := {
  timestamp : Z;
  year : Z;
  month : Z;
  day : Z;
}.

(** [dt.strftime("%Y-%m-%d")], for the years 1000 to 9999 (the C library
    decides whether [%Y] pads an earlier year; the clock of [datetime.now()]
    gives none). *)
Definition strftime_Ymd (dt : datetime) : string :=
  Py.zfill 4 (Py.str_of_int (year dt)) +:+ "-" +:+
  Py.zfill 2 (Py.str_of_int (month dt)) +:+ "-" +:+
  Py.zfill 2 (Py.str_of_int (day dt)).

(** ** The document store *)

Module Store.

(** A database is its named collections; a collection maps the [_id] of
    each document to the rest of the document, so an [_id] is unique in
    its collection.  [rejects_empty_set] records how the server treats an
    update operator with no field: MongoDB answers it with a write error
    before version 5.0 and accepts it as a no-op from 5.0 on. *)
Record mongo : Type := {
  collections : gmap string (gmap N document);
  rejects_empty_set : bool;
}.

Definition collection (db : mongo) (name : string) : gmap N document :=
  default ∅ (collections db !! name).

Definition with_collection (db : mongo) (name : string) (c : gmap N document)
  : mongo :=
  {| collections := <[name := c]> (collections db);
     rejects_empty_set := rejects_empty_set db |}.

(** A query [{"_id": by_id, k1: v1, ...}]. *)
Record filter : Type := {
  by_id : N;
  by_fields : list (string * value);
}.

Definition matches (flt : filter) (d : document) : bool :=
  forallb (fun kv => bool_decide (d !! kv.1 = Some kv.2)) (by_fields flt).

Record UpdateResult : Type := { matched_count : Z }.

(** The server's answer to [{"$set": {}}] where it rejects it. *)
Definition empty_set_error : pyexn :=
  Raised "WriteError"
    "'$set' is empty. You must specify a field like so: {$set: {<field>: ...}}".

(** In each operation [fault] is the environment's verdict on the call:
    [Some e] when it raises [e] (no connection, server error), [None] when
    the store carries it out. *)

(** Modelled from the spec: [insert(collection, document) -> id] of the
    repository's [database] module ([create_document] is built on it), with
    the id an "opaque identifier assigned by the store on creation": some
    identifier not in use in the collection. *)
Definition insert_one (fault : option pyexn) (name : string) (doc : document)
    (db : mongo) : (pyexn + N) * mongo :=
  match fault with
  | Some e => (inl e, db)
  | None =>
      let c := collection db name in
      let o := fresh (dom c) in
      (inr o, with_collection db name (<[o := doc]> c))
  end.

(** Modelled from the spec: [updateOne(collection, filter, patch) ->
    matchedCount], for the patch [{"$set": fields}]: the document the
    filter selects, if any, takes the fields of the patch and keeps its
    other fields. *)
Definition update_one (fault : option pyexn) (name : string) (flt : filter)
    (fields : document) (db : mongo) : (pyexn + UpdateResult) * mongo :=
  match fault with
  | Some e => (inl e, db)
  | None =>
      if rejects_empty_set db && bool_decide (fields = ∅) then
        (inl empty_set_error, db)
      else
        let c := collection db name in
        match c !! by_id flt with
        | Some d =>
            if matches flt d then
              (inr {| matched_count := 1 |},
               with_collection db name (<[by_id flt := fields ∪ d]> c))
            else (inr {| matched_count := 0 |}, db)
        | None => (inr {| matched_count := 0 |}, db)
        end
  end.

End Store.

(** ** Handlers as state transformers that may raise *)

(** [fault] below, as in [Store], is the environment's verdict on an I/O
    step. *)

(** What a request can change: the database and the upload directory. *)
Record world : Type := {
  db : Store.mongo;
  files : gmap string string;
}.

Definition M (A : Type) : Type := world -> (pyexn + A) * world.

Definition ret {A : Type} (a : A) : M A := fun w => (inr a, w).

Definition bind {A B : Type} (m : M A) (k : A -> M B) : M B :=
  fun w =>
    match m w with
    | (inr a, w') => k a w'
    | (inl e, w') => (inl e, w')
    end.

Definition raise {A : Type} (e : pyexn) : M A := fun w => (inl e, w).

(** [try: body except Exception as e: handler(e)] *)
Definition try_except {A : Type} (body : M A) (handler : pyexn -> M A) : M A :=
  fun w =>
    match body w with
    | (inl e, w') => handler e w'
    | (inr a, w') => (inr a, w')
    end.

(** A pure computation that may raise. *)
Definition lift {A : Type} (r : pyexn + A) : M A := fun w => (r, w).

(** A database call. *)
Definition on_db {A : Type} (op : Store.mongo -> (pyexn + A) * Store.mongo) : M A :=
  fun w =>
    let '(r, d) := op (db w) in (r, {| db := d; files := files w |}).

(** [with open(path, "wb") as f: f.write(data)] *)
Definition write_file (fault : option pyexn) (path data : string) : M unit :=
  fun w =>
    match fault with
    | Some e => (inl e, w)
    | None => (inr tt, {| db := db w; files := <[path := data]> (files w) |})
    end.

Notation "x <- m ;; k" := (bind m (fun x => k))
  (at level 20, m at level 99, k at level 200, only parsing).

(** Modelled from the spec: [create_document(collection, document)] of the
    repository's [database] module, the primitive "create a document in a
    named collection", which answers the new identifier as a string. *)
Definition create_document (fault : option pyexn) (name : string) (doc : document)
  : M string :=
  o <- on_db (Store.insert_one fault name doc) ;;
  ret (Bson.str o).

(** Modelled from the spec: [find(collection, filter) -> sequence of
    documents], for a filter of equalities [{k1: v1, ...}]: the documents of
    the collection that have every field of the filter, each with its [_id].
    They come in the order of the collection's finite map; the spec promises
    no order, and no statement below depends on one. *)
Definition find_documents (fields : list (string * value)) (c : gmap N document)
  : list (N * document) :=
  List.filter
    (fun od => forallb (fun kv => bool_decide (od.2 !! kv.1 = Some kv.2)) fields)
    (map_to_list c).

(** Modelled from the spec: [get_documents(collection, filter)] of the
    repository's [database] module, the primitive "fetch documents from a
    named collection by filter". *)
Definition get_documents (fault : option pyexn) (name : string)
    (fields : list (string * value)) : M (list (N * document)) :=
  fun w =>
    match fault with
    | Some e => (inl e, w)
    | None => (inr (find_documents fields (Store.collection (db w) name)), w)
    end.

(** [d.get(k)] and [d.get(k, v)] *)
Definition py_get (d : document) (k : string) : value := default VNone (d !! k).

Definition py_get_default (d : document) (k : string) (v : value) : value :=
  default v (d !! k).

(** ** [schemas.py] *)

Definition opt_str (o : option string) : value :=
  match o with
  | Some s => VStr s
  | None => VNone
  end.

Definition opt_float (o : option Q) : value :=
  match o with
  | Some q => VFloat q
  | None => VNone
  end.

Definition validation_error (field : string) : pyexn :=
  Raised "ValidationError" ("1 validation error: " +:+ field).

Module User.

Record t : Type := {
  name : string;
  email : string;
  subscription_tier : string;
  credits_remaining : Z;
  role : string;
}.

(** The [Field] constraints pydantic checks when the model is built:
    [Literal["Free", "Pro"]], [ge=0], [Literal["admin", "customer"]]. *)
Definition validate (u : t) : pyexn + t :=
  if negb (bool_decide (subscription_tier u ∈ ["Free"; "Pro"])) then
    inl (validation_error "subscription_tier")
  else if credits_remaining u <? 0 then
    inl (validation_error "credits_remaining")
  else if negb (bool_decide (role u ∈ ["admin"; "customer"])) then
    inl (validation_error "role")
  else inr u.

Definition model_dump (u : t) : document :=
  <["name" := VStr (name u)]>
  (<["email" := VStr (email u)]>
  (<["subscription_tier" := VStr (subscription_tier u)]>
  (<["credits_remaining" := VInt (credits_remaining u)]>
  (<["role" := VStr (role u)]> ∅)))).

End User.

Module Invoice.

Record t : Type := {
  user_id : string;
  file_path : option string;
  file_name : option string;
  invoice_number : option string;
  vendor_name : option string;
  date : option string;
  total_amount : option Q;
  status : string;
}.

(** The constraints the fields declare: [total_amount] has [ge=0]; [status]
    is [Literal["Processing", "Needs Review", "Approved"]]. *)
Definition check_fields (i : t) : pyexn + t :=
  if match total_amount i with
     | Some q => negb (Qle_bool 0 q)
     | None => false
     end
  then inl (validation_error "total_amount")
  else if negb (bool_decide (status i ∈ ["Processing"; "Needs Review"; "Approved"])) then
    inl (validation_error "status")
  else inr i.

(** [InvoiceSchema(...)].  Line 33 of [schemas.py] reads
    [date: Optional[date] = Field(None, description="Invoice date")].  In a
    class body Python assigns the value of an annotated assignment to the
    name before it evaluates the annotation, so in [Optional[date]] the name
    [date] is the [Field(...)] object of that line and no longer
    [datetime.date].  pydantic has no schema for such an annotation and
    raises [PydanticSchemaGenerationError] for the class: no [Invoice] can
    be built, whatever the arguments, and the constraints of [check_fields]
    are never consulted.  The model raises the error where [main.py] builds
    an invoice; the text of the message, which no handler reads, is not
    modelled. *)
Definition schema_error : pyexn :=
  Raised "PydanticSchemaGenerationError" "Unable to generate pydantic-core schema".

Definition validate (i : t) : pyexn + t := inl schema_error.

Definition model_dump (i : t) : document :=
  <["user_id" := VStr (user_id i)]>
  (<["file_path" := opt_str (file_path i)]>
  (<["file_name" := opt_str (file_name i)]>
  (<["invoice_number" := opt_str (invoice_number i)]>
  (<["vendor_name" := opt_str (vendor_name i)]>
  (<["date" := opt_str (date i)]>
  (<["total_amount" := opt_float (total_amount i)]>
  (<["status" := VStr (status i)]> ∅))))))).

End Invoice.

(** ** [main.py] *)

Module CreateUserRequest.

Record t : Type := {
  name : string;
  email : string;
  subscription_tier : string;   (* default "Free" *)
  role : string;                (* default "customer" *)
}.

End CreateUserRequest.

Module UpdateInvoiceRequest.

Record t : Type := {
  invoice_id : string;
  invoice_number : option string;
  vendor_name : option string;
  date : option string;
  total_amount : option Q;
  status : option string;
}.

(** [payload.model_dump().items()], in field order. *)
Definition model_dump_items (p : t) : list (string * value) :=
  [ ("invoice_id", VStr (invoice_id p));
    ("invoice_number", opt_str (invoice_number p));
    ("vendor_name", opt_str (vendor_name p));
    ("date", opt_str (date p));
    ("total_amount", opt_float (total_amount p));
    ("status", opt_str (status p)) ].

End UpdateInvoiceRequest.

Record UploadFile : Type := {
  filename : string;
  content : string;
}.

Definition UPLOAD_DIR : string := "uploads".

(** *** [mock_ai_extract] *)

(** The variables the loop of [mock_ai_extract] assigns. *)
Record extracted : Type := {
  vendor : string;
  total_amount : Q;
  date_str : string;
}.

(** [p.replace(".", "", 1).isdigit()] *)
Definition amount_rule (p : string) : bool :=
  Py.isdigit (Py.replace "." "" (Some 1%nat) p).

(** [len(p) >= 3 and p.isalpha()] *)
Definition vendor_rule (p : string) : bool :=
  (3 <=? Py.len p)%nat && Py.isalpha p.

(** [len(p) == 10 and p[4] == '-' and p[7] == '-'] *)
Definition date_rule (p : string) : bool :=
  (Py.len p =? 10)%nat && Py.char_at_is p 4 "-" && Py.char_at_is p 7 "-".

(** One turn of [for p in parts]: three independent [if]s, in this order. *)
Definition extract_step (st : extracted) (p : string) : extracted :=
  let st1 :=
    if amount_rule p then
      match Py.float p with
      | inr x => {| vendor := vendor st; total_amount := x; date_str := date_str st |}
      | inl _ => st
      end
    else st in
  let st2 :=
    if vendor_rule p then
      {| vendor := Py.capitalize p; total_amount := total_amount st1;
         date_str := date_str st1 |}
    else st1 in
  if date_rule p then
    {| vendor := vendor st2; total_amount := total_amount st2; date_str := p |}
  else st2.

(** [parts], the tokens of the file name. *)
Definition parts_of (file_path : string) : list string :=
  let base := Py.basename file_path in
  let name_without_ext := fst (Py.splitext base) in
  Py.split "_" (Py.replace "-" "_" None name_without_ext).

(** [now_number] is the clock reading behind [invoice_number] and [now_date]
    the one behind [date_str]. *)
Definition extract_loop (now_date : datetime) (file_path : string) : extracted :=
  fold_left extract_step (parts_of file_path)
    {| vendor := "Acme Corp"; total_amount := 199; date_str := strftime_Ymd now_date |}.

Definition mock_ai_extract (now_number now_date : datetime) (file_path : string)
  : document :=
  let invoice_number := "INV-" +:+ Py.str_of_int (timestamp now_number) in
  let st := extract_loop now_date file_path in
  <["vendor_name" := VStr (vendor st)]>
  (<["invoice_number" := VStr invoice_number]>
  (<["total_amount" := VFloat (total_amount st)]>
  (<["date" := VStr (date_str st)]> ∅))).

(** *** Auth-lite *)

(** The caller's identity is the [x-user-id] header, if any. *)
Definition get_current_user_id (x_user_id : option string) : option string :=
  x_user_id.

(** *** [create_user] *)

Definition create_user (insert_fault : option pyexn) (payload : CreateUserRequest.t)
  : M document :=
  user <- lift (User.validate
    {| User.name := CreateUserRequest.name payload;
       User.email := CreateUserRequest.email payload;
       User.subscription_tier := CreateUserRequest.subscription_tier payload;
       User.credits_remaining :=
         if String.eqb (CreateUserRequest.subscription_tier payload) "Free"
         then 50 else 1000;
       User.role := CreateUserRequest.role payload |}) ;;
  user_id <- create_document insert_fault "user" (User.model_dump user) ;;
  ret ({[ "id" := VStr user_id ]} : document).

(** *** [upload_invoice] *)

(** The clock readings and the verdicts on the I/O steps of one upload, in
    the order the handler meets them. *)
Record upload_env : Type := {
  now_file_name : datetime;
  write_fault : option pyexn;
  insert_fault : option pyexn;
  now_number : datetime;
  now_date : datetime;
  patch_fault : option pyexn;
}.

(** [os.path.join(UPLOAD_DIR, f"{int(datetime.now().timestamp())}_{file.filename}")] *)
Definition stored_path (now : datetime) (file_name : string) : string :=
  Py.join UPLOAD_DIR (Py.str_of_int (timestamp now) +:+ "_" +:+ file_name).

(** [{"id": invoice_id, **extracted, "status": "Needs Review"}] *)
Definition upload_response (invoice_id : string) (fields : document) : document :=
  <["status" := VStr "Needs Review"]> (fields ∪ {[ "id" := VStr invoice_id ]}).

(** The [try] block of [upload_invoice] with its [except Exception: pass]:
    [db["invoice"].update_one({"_id": ObjectId(invoice_id)}, {"$set": extracted})] *)
Definition patch_invoice (fault : option pyexn) (invoice_id : string)
    (fields : document) : M unit :=
  try_except
    (o <- lift (Bson.ObjectId invoice_id) ;;
     _ <- on_db (Store.update_one fault "invoice"
                   {| Store.by_id := o; Store.by_fields := [] |} fields) ;;
     ret tt)
    (fun _ => ret tt).

(** The arguments of [InvoiceSchema(...)] in [upload_invoice]. *)
Definition placeholder_invoice (user file_path file_name : string) : Invoice.t :=
  {| Invoice.user_id := user;
     Invoice.file_path := Some file_path;
     Invoice.file_name := Some file_name;
     Invoice.invoice_number := None;
     Invoice.vendor_name := None;
     Invoice.date := None;
     Invoice.total_amount := None;
     Invoice.status := "Processing" |}.

Definition upload_invoice (env : upload_env) (file : UploadFile)
    (current_user : option string) : M document :=
  match current_user with
  | None => raise (HTTPException 401 "Missing x-user-id header")
  | Some user =>
      let file_path := stored_path (now_file_name env) (filename file) in
      _ <- write_file (write_fault env) file_path (content file) ;;
      inv <- lift (Invoice.validate
                     (placeholder_invoice user file_path (filename file))) ;;
      invoice_id <- create_document (insert_fault env) "invoice" (Invoice.model_dump inv) ;;
      let fields := mock_ai_extract (now_number env) (now_date env) file_path in
      _ <- patch_invoice (patch_fault env) invoice_id fields ;;
      ret (upload_response invoice_id fields)
  end.

(** *** [update_invoice] *)

(** [{k: v for k, v in payload.model_dump().items()
      if k != "invoice_id" and v is not None}] *)
Definition updates_of (payload : UpdateInvoiceRequest.t) : document :=
  list_to_map
    (filter (fun kv => kv.1 ≠ "invoice_id" ∧ kv.2 ≠ VNone)
            (UpdateInvoiceRequest.model_dump_items payload)).

Definition update_invoice (update_fault : option pyexn)
    (payload : UpdateInvoiceRequest.t) (current_user : option string) : M document :=
  match current_user with
  | None => raise (HTTPException 401 "Missing x-user-id header")
  | Some user =>
      _ <- try_except
             (let updates := updates_of payload in
              o <- lift (Bson.ObjectId (UpdateInvoiceRequest.invoice_id payload)) ;;
              res <- on_db (Store.update_one update_fault "invoice"
                              {| Store.by_id := o;
                                 Store.by_fields := [("user_id", VStr user)] |}
                              updates) ;;
              if Store.matched_count res =? 0
              then raise (HTTPException 404 "Invoice not found")
              else ret tt)
             (fun e => raise (HTTPException 400 (str_exn e))) ;;
      ret ({[ "ok" := VBool true ]} : document)
  end.

(** *** [list_invoices] *)

(** The dictionary [list_invoices] appends for one document.  No value of
    this model is a [datetime] (nothing in [main.py] stores one under
    ["date"]), so [isinstance(date_val, datetime)] is false and [date_val] is
    [d.get("date")] as it is. *)
Definition invoice_summary (od : N * document) : document :=
  let d := od.2 in
  let date_val := py_get d "date" in
  <["id" := VStr (Bson.str od.1)]>
  (<["file_name" := py_get d "file_name"]>
  (<["invoice_number" := py_get d "invoice_number"]>
  (<["vendor_name" := py_get d "vendor_name"]>
  (<["date" := date_val]>
  (<["total_amount" := py_get d "total_amount"]>
  (<["status" := py_get_default d "status" (VStr "Processing")]> ∅)))))).

Definition list_invoices (find_fault : option pyexn) (current_user : option string)
  : M (list document) :=
  match current_user with
  | None => raise (HTTPException 401 "Missing x-user-id header")
  | Some user =>
      docs <- get_documents find_fault "invoice" [("user_id", VStr user)] ;;
      ret (map invoice_summary docs)
  end.

(** *** [export_invoices_csv] *)

Module FileResponse.

Record t : Type := {
  path : string;
  media_type : string;
  filename : string;
}.

End FileResponse.

Definition csv_header : list value :=
  [VStr "Invoice Number"; VStr "Vendor"; VStr "Date"; VStr "Total Amount";
   VStr "Status"; VStr "File Name"].

(** The list [writer.writerow] receives for one document. *)
Definition csv_row (od : N * document) : list value :=
  let d := od.2 in
  [py_get_default d "invoice_number" (VStr "");
   py_get_default d "vendor_name" (VStr "");
   py_get_default d "date" (VStr "");
   py_get_default d "total_amount" (VStr "");
   py_get_default d "status" (VStr "");
   py_get_default d "file_name" (VStr "")].

Section CsvExport.

(** [output.getvalue().encode()] as a function of the rows given to
    [writer.writerow]: the text the [csv] module makes of them. *)
Variable csv_text : list (list value) -> string.

Definition export_invoices_csv (find_fault write_fault : option pyexn)
    (current_user : option string) : M FileResponse.t :=
  match current_user with
  | None => raise (HTTPException 401 "Missing x-user-id header")
  | Some user =>
      docs <- get_documents find_fault "invoice" [("user_id", VStr user)] ;;
      let rows := csv_header :: map csv_row docs in
      let csv_bytes := csv_text rows in
      let filename := "invoices_" +:+ user +:+ ".csv" in
      let path := Py.join UPLOAD_DIR filename in
      _ <- write_file write_fault path csv_bytes ;;
      ret {| FileResponse.path := path;
             FileResponse.media_type := "text/csv";
             FileResponse.filename := filename |}
  end.

End CsvExport.

(** * The vocabulary of the statements *)

(** Predicates and example data that the theorems below are stated with;
    none of them is part of the program. *)

(** [c] does not occur in [s]. *)
Definition lacks (c : ascii) (s : string) : bool :=
  Py.all_chars (fun x => negb (Ascii.eqb x c)) s.

(** Every character of [s] is an ASCII one. *)
Definition is_ascii (s : string) : bool :=
  Py.all_chars (fun c => (nat_of_ascii c <? 128)%nat) s.

(** The decimal print of an integer: digits after an optional sign. *)
Definition is_int_char (c : ascii) : bool :=
  Py.is_digit_char c || Ascii.eqb c "-".

(** The part of a client file name before its last dot (all of it when it
    has no dot): what [os.path.splitext] keeps of the name once the time
    stamp stands in front of it. *)
Definition upload_stem (name : string) : string :=
  if Py.rfind "." name <? 0 then name else Py.slice_to (Py.rfind "." name) name.

(** [s.replace("-", "_").split("_")] *)
Definition tokens (s : string) : list string :=
  Py.split "_" (Py.replace "-" "_" None s).

(** A clock reading for the examples: 5 March 2024, 10:00 UTC. *)
Definition reading_2024_03_05 : datetime :=
  {| timestamp := 1709632800; year := 2024; month := 3; day := 5 |}.

(** How [update_one] may change a document: not at all, or by taking the
    fields of the patch. *)
Definition patched_by (fields d d' : document) : Prop :=
  d' = d \/ d' = fields ∪ d.

(** The value the request gives for a key of the patch. *)
Definition requested (payload : UpdateInvoiceRequest.t) (k : string) : option value :=
  if decide (k = "invoice_number") then VStr <$> UpdateInvoiceRequest.invoice_number payload
  else if decide (k = "vendor_name") then VStr <$> UpdateInvoiceRequest.vendor_name payload
  else if decide (k = "date") then VStr <$> UpdateInvoiceRequest.date payload
  else if decide (k = "total_amount") then VFloat <$> UpdateInvoiceRequest.total_amount payload
  else if decide (k = "status") then VStr <$> UpdateInvoiceRequest.status payload
  else None.

(** A store for the examples: one invoice, of alice, with every field of
    the invoice collection filled in. *)
Definition alice_invoice : document :=
  <["vendor_name" := VStr "Receipt"]>
  (<["invoice_number" := VStr "INV-1709632800"]>
  (<["total_amount" := VFloat 1709632800]>
  (<["date" := VStr "2024-03-05"]>
  (Invoice.model_dump
     {| Invoice.user_id := "alice";
        Invoice.file_path := Some "uploads/1709632800_receipt.pdf";
        Invoice.file_name := Some "receipt.pdf";
        Invoice.invoice_number := None;
        Invoice.vendor_name := None;
        Invoice.date := None;
        Invoice.total_amount := None;
        Invoice.status := "Processing" |})))).

Definition alice_world : world :=
  {| db := {| Store.collections := {[ "invoice" := {[ 0%N := alice_invoice ]} ]};
              Store.rejects_empty_set := false |};
     files := {[ "uploads/1709632800_receipt.pdf" := "%PDF" ]} |}.

(** A request on alice's invoice. *)
Definition request_on_alice_invoice (amount : option Q) (status : option string)
  : UpdateInvoiceRequest.t :=
  {| UpdateInvoiceRequest.invoice_id := "000000000000000000000000";
     UpdateInvoiceRequest.invoice_number := None;
     UpdateInvoiceRequest.vendor_name := None;
     UpdateInvoiceRequest.date := None;
     UpdateInvoiceRequest.total_amount := amount;
     UpdateInvoiceRequest.status := status |}.





(** * Properties *)

#[local] Arguments String.append !_ _ / : simpl nomatch.

(** ** Facts about the string helpers *)

Section StringFacts.

Implicit Types (s a b : string) (c : ascii) (f : ascii -> bool).

Lemma all_chars_app f a b :
  Py.all_chars f (a +:+ b) = Py.all_chars f a && Py.all_chars f b.
Proof.
  induction a as [|x a IH]; simpl; [done|].
  by rewrite IH, andb_assoc.
Qed.

Lemma all_chars_impl f g s :
  (forall x, f x = true -> g x = true) ->
  Py.all_chars f s = true -> Py.all_chars g s = true.
Proof.
  intros Hfg. induction s as [|x s IH]; simpl; [done|].
  intros [Hx Hs]%andb_true_iff. rewrite (Hfg _ Hx). simpl. auto.
Qed.

Lemma all_chars_get f s i x :
  Py.all_chars f s = true -> String.get i s = Some x -> f x = true.
Proof.
  revert i. induction s as [|y s IH]; intros i; simpl; [done|].
  intros [Hy Hs]%andb_true_iff. destruct i as [|i].
  - intros [= <-]. exact Hy.
  - eauto.
Qed.

Lemma char_at_is_lacks s i c : lacks c s = true -> Py.char_at_is s i c = false.
Proof.
  intros Hs. unfold Py.char_at_is.
  destruct (String.get i s) as [x|] eqn:Hget; [|done].
  pose proof (all_chars_get _ _ _ _ Hs Hget) as Hx. simpl in Hx.
  by apply negb_true_iff in Hx.
Qed.


(** Replacing every [old] by a different character leaves no [old]. *)
Lemma replace_all_lacks (old new : ascii) s :
  old <> new -> lacks old (Py.replace old (String new EmptyString) None s) = true.
Proof.
  intros Hne. unfold lacks. induction s as [|x s IH]; simpl; [done|].
  destruct (Ascii.eqb x old) eqn:Hx; simpl.
  - rewrite IH, andb_true_r. apply negb_true_iff, Ascii.eqb_neq. congruence.
  - by rewrite Hx, IH.
Qed.

Lemma replace_all_app old new a b :
  Py.replace old new None (a +:+ b)
  = Py.replace old new None a +:+ Py.replace old new None b.
Proof.
  induction a as [|x a IH]; simpl; [done|].
  destruct (Ascii.eqb x old); rewrite IH; [|done].
  generalize (Py.replace old new None a) (Py.replace old new None b).
  clear. intros u v. induction new as [|y new IH]; simpl; [done|]. by rewrite IH.
Qed.

Lemma replace_absent old new count s :
  lacks old s = true -> Py.replace old new count s = s.
Proof.
  unfold lacks. induction s as [|x s IH]; simpl; [done|].
  intros [Hx Hs]%andb_true_iff. apply negb_true_iff in Hx.
  by rewrite Hx, IH.
Qed.

Lemma split_nonempty sep s : Py.split sep s <> [].
Proof.
  destruct s as [|x s]; simpl; [done|].
  destruct (Ascii.eqb x sep); [done|]. by destruct (Py.split sep s).
Qed.

(** The tokens of [s] are made of characters of [s]. *)
Lemma split_all_chars f sep s :
  Py.all_chars f s = true ->
  Forall (fun p => Py.all_chars f p = true) (Py.split sep s).
Proof.
  induction s as [|x s IH]; simpl.
  - intros _. by repeat constructor.
  - intros [Hx Hs]%andb_true_iff. specialize (IH Hs).
    destruct (Ascii.eqb x sep).
    + by constructor.
    + destruct (Py.split sep s) as [|tok toks]; [by repeat (constructor; simpl; try rewrite Hx)|].
      inversion IH; subst. constructor; [|done]. simpl. by rewrite Hx.
Qed.

Lemma split_absent sep s : lacks sep s = true -> Py.split sep s = [s].
Proof.
  unfold lacks. induction s as [|x s IH]; simpl; [done|].
  intros [Hx Hs]%andb_true_iff. apply negb_true_iff in Hx.
  by rewrite Hx, IH.
Qed.

(** Splitting distributes over a separator in the middle. *)
Lemma split_app_sep sep a b :
  Py.split sep (a +:+ String sep b) = (Py.split sep a ++ Py.split sep b)%list.
Proof.
  induction a as [|x a IH]; simpl.
  - by rewrite Ascii.eqb_refl.
  - destruct (Ascii.eqb x sep); [by rewrite IH|].
    rewrite IH. pose proof (split_nonempty sep a).
    by destruct (Py.split sep a).
Qed.

End StringFacts.

(** ** The date rule of [mock_ai_extract] *)

Lemma parts_lack_dash (file_path : string) :
  Forall (fun p => lacks "-" p = true) (parts_of file_path).
Proof.
  unfold parts_of. apply split_all_chars.
  by apply (replace_all_lacks "-" "_").
Qed.

Lemma date_rule_needs_dash (p : string) : lacks "-" p = true -> date_rule p = false.
Proof.
  intros Hp. unfold date_rule.
  by rewrite (char_at_is_lacks _ 4 _ Hp), andb_false_r.
Qed.

Lemma extract_step_date (st : extracted) (p : string) :
  date_rule p = false -> date_str (extract_step st p) = date_str st.
Proof.
  intros Hp. unfold extract_step. rewrite Hp.
  destruct (vendor_rule p), (amount_rule p); simpl; try done;
    by destruct (Py.float p).
Qed.

Lemma extract_fold_date (l : list string) (st : extracted) :
  Forall (fun p => date_rule p = false) l ->
  date_str (fold_left extract_step l st) = date_str st.
Proof.
  revert st. induction l as [|p l IH]; intros st Hl; simpl; [done|].
  inversion Hl; subst. rewrite IH by done. by apply extract_step_date.
Qed.

Lemma lookup_date (now_number now_date : datetime) (file_path : string) :
  mock_ai_extract now_number now_date file_path !! "date"
  = Some (VStr (strftime_Ymd now_date)).
Proof.
  unfold mock_ai_extract, extract_loop.
  rewrite !lookup_insert_ne by done. rewrite lookup_insert_eq.
  rewrite extract_fold_date; [done|].
  eapply Forall_impl; [apply parts_lack_dash|]. apply date_rule_needs_dash.
Qed.

(** C9: whatever the file name, no token of it satisfies the date rule,
    because every ['-'] has been replaced by ['_'] before the split; so the
    [date] that [mock_ai_extract] returns is always the current date, as
    [strftime("%Y-%m-%d")] prints it. *)
Theorem date_rule_never_fires (now_number now_date : datetime) (file_path : string) :
  Forall (fun p => date_rule p = false) (parts_of file_path) /\
  mock_ai_extract now_number now_date file_path !! "date"
  = Some (VStr (strftime_Ymd now_date)).
Proof.
  assert (Hparts : Forall (fun p => date_rule p = false) (parts_of file_path)).
  { eapply Forall_impl; [apply parts_lack_dash|]. apply date_rule_needs_dash. }
  split; [exact Hparts|]. apply lookup_date.
Qed.

(** ** The tokens of an uploaded file's stored name *)

Section StoredPath.

Implicit Types (s a b : string) (c : ascii).

Lemma rfind_from_app c a b i last :
  Py.rfind_from c (a +:+ b) i last
  = Py.rfind_from c b (i + Z.of_nat (Py.len a)) (Py.rfind_from c a i last).
Proof.
  revert i last. induction a as [|x a IH]; intros i last; simpl.
  - f_equal. lia.
  - rewrite IH. f_equal. lia.
Qed.

Lemma rfind_from_shift c s i last :
  Py.rfind_from c s i last = if lacks c s then last else i + Py.rfind c s.
Proof.
  unfold Py.rfind, lacks. revert i last.
  induction s as [|x s IH]; intros i last; simpl; [done|].
  rewrite (IH (i + 1)), (IH (0 + 1)).
  destruct (Ascii.eqb x c); simpl;
    destruct (Py.all_chars _ s); simpl; lia.
Qed.

Lemma take_chars_app a b k :
  Py.take_chars (Py.len a + k) (a +:+ b) = a +:+ Py.take_chars k b.
Proof. induction a as [|x a IH]; simpl; [done|]. by rewrite IH. Qed.

Lemma take_chars_all s : Py.take_chars (Py.len s) s = s.
Proof. induction s as [|x s IH]; simpl; [done|]. by rewrite IH. Qed.

Lemma string_of_uint_digits (d : Decimal.uint) :
  Py.all_chars Py.is_digit_char (NilEmpty.string_of_uint d) = true.
Proof. induction d; simpl; auto. Qed.

Lemma nilzero_string_of_uint_digits (d : Decimal.uint) :
  Py.isdigit (NilZero.string_of_uint d) = true.
Proof.
  unfold Py.isdigit.
  destruct d; try done; simpl; apply string_of_uint_digits.
Qed.

Lemma str_of_int_chars (z : Z) :
  exists x s, Py.str_of_int z = String x s /\
              Py.all_chars is_int_char (String x s) = true.
Proof.
  assert (Hd : forall d, exists x s, NilZero.string_of_uint d = String x s /\
                 Py.all_chars is_int_char (String x s) = true).
  { intros d. pose proof (nilzero_string_of_uint_digits d) as Hd.
    unfold Py.isdigit in Hd. apply andb_true_iff in Hd as [Hlen Hall].
    destruct (NilZero.string_of_uint d) as [|x s]; [done|].
    exists x, s. split; [done|].
    eapply all_chars_impl; [|exact Hall].
    intros y Hy. unfold is_int_char. by rewrite Hy. }
  unfold Py.str_of_int.
  destruct z as [|p|p]; simpl.
  - by exists "0"%char, EmptyString.
  - apply Hd.
  - destruct (Hd (Pos.to_uint p)) as (x & s & -> & Hs).
    eexists _, _. split; [done|]. simpl in *. by rewrite Hs.
Qed.

Lemma str_of_int_nonneg (z : Z) :
  0 <= z -> Py.isdigit (Py.str_of_int z) = true.
Proof.
  intros Hz. unfold Py.str_of_int.
  destruct z as [|p|p]; [done| |lia]. apply nilzero_string_of_uint_digits.
Qed.

Lemma int_chars_lack c s :
  is_int_char c = false -> Py.all_chars is_int_char s = true -> lacks c s = true.
Proof.
  intros Hc. apply all_chars_impl. intros x Hx.
  apply negb_true_iff, Ascii.eqb_neq. intros ->. congruence.
Qed.

Lemma rfind_from_ge c s (bound i last : Z) :
  bound <= i -> bound <= last -> bound <= Py.rfind_from c s i last.
Proof.
  revert i last. induction s as [|x s IH]; intros i last Hi Hl; simpl; [done|].
  destruct (Ascii.eqb x c); apply IH; lia.
Qed.

Lemma rfind_lacks c s : lacks c s = true -> Py.rfind c s = -1.
Proof. intros Hs. unfold Py.rfind. by rewrite rfind_from_shift, Hs. Qed.

Lemma rfind_from_occurs c s i last :
  lacks c s = false -> i <= Py.rfind_from c s i last.
Proof.
  unfold lacks. revert i last.
  induction s as [|x s IH]; intros i last; simpl; [done|].
  destruct (Ascii.eqb x c) eqn:Hx; simpl.
  - intros _. apply rfind_from_ge; lia.
  - intros Hs. pose proof (IH (i + 1) last Hs). lia.
Qed.

Lemma rfind_occurs c s : lacks c s = false -> 0 <= Py.rfind c s.
Proof. apply rfind_from_occurs. Qed.

End StoredPath.

Lemma stored_path_eq (now : datetime) (name : string) :
  stored_path now name = "uploads/" +:+ Py.str_of_int (timestamp now) +:+ "_" +:+ name.
Proof.
  unfold stored_path, Py.join, UPLOAD_DIR.
  destruct (str_of_int_chars (timestamp now)) as (x & s & -> & Hs).
  simpl in Hs. apply andb_true_iff in Hs as [Hx _].
  assert (Hslash : Ascii.eqb x "/" = false).
  { apply Ascii.eqb_neq. intros ->. done. }
  unfold Py.char_at_is at 1. simpl. by rewrite Hslash.
Qed.

Lemma basename_uploads (b : string) :
  lacks "/" b = true -> Py.basename ("uploads/" +:+ b) = b.
Proof.
  intros Hb. unfold Py.basename, Py.rfind.
  by rewrite rfind_from_app, (rfind_from_shift "/" b), Hb.
Qed.

Lemma splitext_prefixed (x : ascii) (s name : string) :
  Py.all_chars is_int_char (String x s) = true ->
  lacks "/" name = true ->
  fst (Py.splitext (String x s +:+ "_" +:+ name))
  = String x s +:+ "_" +:+ upload_stem name.
Proof.
  intros Hs Hname.
  pose proof (int_chars_lack "/" _ eq_refl Hs) as Hs_slash.
  pose proof (int_chars_lack "." _ eq_refl Hs) as Hs_dot.
  assert (Hx : Ascii.eqb x "." = false).
  { unfold lacks in Hs_dot. simpl in Hs_dot.
    apply andb_true_iff in Hs_dot as [Hx _]. by apply negb_true_iff in Hx. }
  assert (Hidx : Py.rfind "." (String x s +:+ "_" +:+ name)
                 = if lacks "." name then -1
                   else Z.of_nat (Py.len (String x s)) + 1 + Py.rfind "." name).
  { unfold Py.rfind at 1.
    rewrite rfind_from_app, (rfind_from_shift "." (String x s)), Hs_dot.
    change ("_" +:+ name) with (String "_" name).
    cbn [Py.rfind_from Ascii.eqb Bool.eqb]. rewrite rfind_from_shift.
    destruct (lacks "." name); lia. }
  unfold Py.splitext, upload_stem.
  rewrite (rfind_lacks "/"), Hidx.
  2:{ unfold lacks in *. rewrite all_chars_app, Hs_slash. simpl. exact Hname. }
  destruct (lacks "." name) eqn:Hdot.
  - by rewrite (rfind_lacks "." name Hdot).
  - pose proof (rfind_occurs "." name Hdot) as Hk.
    set (k := Py.rfind "." name) in *.
    replace (-1 <? Z.of_nat (Py.len (String x s)) + 1 + k) with true
      by (symmetry; apply Z.ltb_lt; lia).
    replace (k <? 0) with false by (symmetry; apply Z.ltb_ge; lia).
    replace (Z.to_nat (Z.of_nat (Py.len (String x s)) + 1 + k - (-1 + 1)))
      with (S (Py.len s + 1 + Z.to_nat k)) by (simpl Py.len; lia).
    replace (Z.to_nat (-1 + 1)) with 0%nat by done.
    cbn [Py.has_non_dot_between]. unfold Py.char_at_is at 1.
    cbn [String.get String.append]. rewrite Hx. cbn [negb orb andb fst].
    unfold Py.slice_to.
    replace (Z.to_nat (Z.of_nat (Py.len (String x s)) + 1 + k))
      with (Py.len (String x s) + S (Z.to_nat k))%nat by (simpl Py.len; lia).
    change (String x (s +:+ String "_" name)) with (String x s +:+ String "_" name).
    by rewrite take_chars_app.
Qed.

(** The tokens of the stored name of an upload: those of the time stamp,
    then those of the client's file name without its extension. *)
Lemma parts_of_stored_path (now : datetime) (name : string) :
  lacks "/" name = true ->
  parts_of (stored_path now name)
  = (tokens (Py.str_of_int (timestamp now)) ++ tokens (upload_stem name))%list.
Proof.
  intros Hname. rewrite stored_path_eq. unfold parts_of.
  destruct (str_of_int_chars (timestamp now)) as (x & s & -> & Hs).
  rewrite basename_uploads.
  2:{ pose proof (int_chars_lack "/" _ eq_refl Hs) as Hs_slash.
      unfold lacks in *. rewrite all_chars_app, Hs_slash. simpl. exact Hname. }
  rewrite splitext_prefixed by done.
  unfold tokens. rewrite replace_all_app.
  change (Py.replace "-" "_" None ("_" +:+ upload_stem name))
    with (String "_" (Py.replace "-" "_" None (upload_stem name))).
  apply split_app_sep.
Qed.

(** ** The two uploads of the specification's examples *)

Lemma lookup_vendor_name (n d : datetime) (path : string) :
  mock_ai_extract n d path !! "vendor_name" = Some (VStr (vendor (extract_loop d path))).
Proof. unfold mock_ai_extract. by rewrite lookup_insert_eq. Qed.

Lemma lookup_invoice_number (n d : datetime) (path : string) :
  mock_ai_extract n d path !! "invoice_number"
  = Some (VStr ("INV-" +:+ Py.str_of_int (timestamp n))).
Proof.
  unfold mock_ai_extract.
  rewrite lookup_insert_ne by done. by rewrite lookup_insert_eq.
Qed.

Lemma lookup_total_amount (n d : datetime) (path : string) :
  mock_ai_extract n d path !! "total_amount"
  = Some (VFloat (total_amount (extract_loop d path))).
Proof.
  unfold mock_ai_extract.
  rewrite !lookup_insert_ne by done. by rewrite lookup_insert_eq.
Qed.

Lemma lookup_other_key (n d : datetime) (path : string) (k : string) :
  k ∉ ["vendor_name"; "invoice_number"; "total_amount"; "date"] ->
  mock_ai_extract n d path !! k = None.
Proof.
  intros Hk. unfold mock_ai_extract.
  rewrite !lookup_insert_ne; [done|..]; intros <-; apply Hk; set_solver.
Qed.

Lemma extract_loop_stored (f d : datetime) (name : string) :
  lacks "/" name = true ->
  extract_loop d (stored_path f name)
  = fold_left extract_step (tokens (upload_stem name))
      (fold_left extract_step (tokens (Py.str_of_int (timestamp f)))
         {| vendor := "Acme Corp"; total_amount := 199;
            date_str := strftime_Ymd d |}).
Proof.
  intros Hname. unfold extract_loop.
  by rewrite parts_of_stored_path, fold_left_app.
Qed.

(** What the five tokens of [acme_250.50_2024-03-01] do to the loop
    variables, whatever they were before. *)
Lemma acme_tokens (st : extracted) :
  tokens (upload_stem "acme_250.50_2024-03-01.pdf")
  = ["acme"; "250.50"; "2024"; "03"; "01"] /\
  fold_left extract_step ["acme"; "250.50"; "2024"; "03"; "01"] st
  = {| vendor := "Acme"; total_amount := 1; date_str := date_str st |}.
Proof. split; reflexivity. Qed.

(** The three rules of the loop on the tokens that a split on ["_"] alone
    gives: the vendor is "Acme", the amount 250.5 and the date the token
    2024-03-01, whatever the variables were before.  The rules are written
    for these values; the replacement of ["-"] by ["_"] on line 54 of
    [main.py] is what takes them away. *)
Lemma acme_tokens_split_on_underscore (st : extracted) :
  Py.split "_" "acme_250.50_2024-03-01" = ["acme"; "250.50"; "2024-03-01"] /\
  fold_left extract_step ["acme"; "250.50"; "2024-03-01"] st
  = {| vendor := "Acme"; total_amount := 501 # 2; date_str := "2024-03-01" |}.
Proof. split; reflexivity. Qed.

(** C1: for the upload of [acme_250.50_2024-03-01.pdf], at any time,
    [mock_ai_extract] returns the vendor "Acme", the amount 1.0 and the date
    of the clock, not the amount 250.50 and the date 2024-03-01 of the
    claim: the stem gives the tokens acme, 250.50, 2024, 03, 01 after those
    of the time stamp, the last numeric token, 01, gives the amount, and no
    token is left for the date rule.  The same holds when the heuristic is
    applied to the bare file name. *)
Theorem acme_upload_extraction (now_file_name now_number now_date : datetime) :
  let name := "acme_250.50_2024-03-01.pdf" in
  let fields := mock_ai_extract now_number now_date (stored_path now_file_name name) in
  let bare := mock_ai_extract now_number now_date name in
  parts_of name = ["acme"; "250.50"; "2024"; "03"; "01"] /\
  fields !! "vendor_name" = Some (VStr "Acme") /\
  fields !! "total_amount" = Some (VFloat 1) /\
  fields !! "date" = Some (VStr (strftime_Ymd now_date)) /\
  bare !! "vendor_name" = Some (VStr "Acme") /\
  bare !! "total_amount" = Some (VFloat 1) /\
  bare !! "date" = Some (VStr (strftime_Ymd now_date)).
Proof.
  intros name fields bare. subst fields bare.
  rewrite !lookup_vendor_name, !lookup_total_amount, !lookup_date.
  rewrite extract_loop_stored by reflexivity.
  subst name. destruct (acme_tokens
    (fold_left extract_step (tokens (Py.str_of_int (timestamp now_file_name)))
       {| vendor := "Acme Corp"; total_amount := 199;
          date_str := strftime_Ymd now_date |})) as [-> ->].
  repeat split; reflexivity.
Qed.

(** For an upload on 5 March 2024 the answer is not the one of the round
    trip: the amount is not 250.50 and the date is 2024-03-05. *)
Lemma acme_upload_not_as_specified :
  let fields := mock_ai_extract reading_2024_03_05 reading_2024_03_05
                  (stored_path reading_2024_03_05 "acme_250.50_2024-03-01.pdf") in
  ~ (fields !! "vendor_name" = Some (VStr "Acme") /\
     fields !! "total_amount" = Some (VFloat (501 # 2)) /\
     fields !! "date" = Some (VStr "2024-03-01")).
Proof.
  intros fields (_ & Hamount & _). subst fields.
  rewrite lookup_total_amount in Hamount. vm_compute in Hamount. discriminate.
Qed.

(** *** The time stamp as a token *)

Lemma digit_not_alpha (x : ascii) :
  Py.is_digit_char x = true -> Py.is_alpha_char x = false.
Proof.
  unfold Py.is_digit_char, Py.is_alpha_char, Py.is_upper_char, Py.is_lower_char.
  intros [H1 H2]%andb_true_iff.
  apply Nat.leb_le in H1, H2.
  apply orb_false_iff; split; apply andb_false_iff; left; apply Nat.leb_gt; lia.
Qed.

Lemma digit_is_int_char (x : ascii) :
  Py.is_digit_char x = true -> forall c, Py.is_digit_char c = false -> Ascii.eqb x c = false.
Proof. intros Hx c Hc. apply Ascii.eqb_neq. intros ->. congruence. Qed.

Lemma digits_lack (c : ascii) (s : string) :
  Py.is_digit_char c = false -> Py.all_chars Py.is_digit_char s = true ->
  lacks c s = true.
Proof.
  intros Hc. apply all_chars_impl. intros x Hx.
  by rewrite (digit_is_int_char x Hx c Hc).
Qed.

Lemma cut_at_absent (c : ascii) (s : string) :
  lacks c s = true -> Py.cut_at c s = (s, EmptyString).
Proof.
  unfold lacks. induction s as [|x s IH]; simpl; [done|].
  intros [Hx Hs]%andb_true_iff. apply negb_true_iff in Hx.
  by rewrite Hx, IH.
Qed.

Lemma append_empty_r (s : string) : s +:+ "" = s.
Proof. induction s as [|x s IH]; simpl; [done|]. by rewrite IH. Qed.

(** [float(str(z)) == z] for a natural number [z]. *)
Lemma float_str_of_int (z : Z) :
  0 <= z -> Py.float (Py.str_of_int z) = inr (inject_Z z).
Proof.
  intros Hz. pose proof (str_of_int_nonneg z Hz) as Hdigits.
  unfold Py.float. rewrite cut_at_absent.
  2:{ apply andb_true_iff in Hdigits as [_ Hall]. by apply digits_lack. }
  rewrite append_empty_r, Hdigits.
  assert (Hparse : NilEmpty.uint_of_string (Py.str_of_int z)
                   = Some (match z with Z.pos p => Pos.to_uint p | _ => Decimal.D0 Decimal.Nil end)).
  { unfold Py.str_of_int. destruct z as [|p|p]; [done| |lia].
    simpl. pose proof (Unsigned.to_uint_nonnil p) as Hnil.
    replace (NilZero.string_of_uint (Pos.to_uint p))
      with (NilEmpty.string_of_uint (Pos.to_uint p))
      by (by destruct (Pos.to_uint p)).
    apply NilEmpty.usu. }
  rewrite Hparse. f_equal.
  replace (Z.of_uint _) with z.
  - apply inject_Z_Qred.
  - destruct z as [|p|p]; [done| |lia].
    unfold Z.of_uint. by rewrite DecimalPos.Unsigned.of_to.
Qed.

(** The time stamp of the stored name is one token, and a numeric one. *)
Lemma timestamp_token (z : Z) (st : extracted) :
  0 <= z ->
  tokens (Py.str_of_int z) = [Py.str_of_int z] /\
  extract_step st (Py.str_of_int z)
  = {| vendor := vendor st; total_amount := inject_Z z; date_str := date_str st |}.
Proof.
  intros Hz. pose proof (str_of_int_nonneg z Hz) as Hdigits.
  pose proof Hdigits as [Hlen Hall]%andb_true_iff.
  split.
  - unfold tokens.
    rewrite replace_absent by (by apply digits_lack).
    apply split_absent. by apply digits_lack.
  - unfold extract_step, amount_rule, vendor_rule.
    rewrite replace_absent by (by apply digits_lack).
    rewrite Hdigits, float_str_of_int by done.
    rewrite date_rule_needs_dash by (by apply digits_lack).
    replace (Py.isalpha (Py.str_of_int z)) with false; [by rewrite andb_false_r|].
    symmetry. unfold Py.isalpha.
    destruct (Py.str_of_int z) as [|x s]; [done|]. simpl in *.
    apply andb_true_iff in Hall as [Hx _].
    by rewrite (digit_not_alpha x Hx).
Qed.

(** C3, as amended: for the upload of [receipt.pdf] at a time stamp that
    is not negative, [mock_ai_extract] returns the vendor "Receipt" (the token
    receipt is alphabetic and has three characters or more), the time stamp of
    the stored name as amount (it is a numeric token), the current date, and
    the invoice number "INV-" followed by the current time stamp.  Applied to
    the bare name [receipt.pdf] the heuristic returns the same vendor, and the
    default amount 199.0. *)
Theorem receipt_upload_extraction (now_file_name now_number now_date : datetime) :
  0 <= timestamp now_file_name ->
  let fields :=
    mock_ai_extract now_number now_date (stored_path now_file_name "receipt.pdf") in
  let bare := mock_ai_extract now_number now_date "receipt.pdf" in
  parts_of (stored_path now_file_name "receipt.pdf")
  = [Py.str_of_int (timestamp now_file_name); "receipt"] /\
  fields !! "vendor_name" = Some (VStr "Receipt") /\
  fields !! "total_amount" = Some (VFloat (inject_Z (timestamp now_file_name))) /\
  fields !! "date" = Some (VStr (strftime_Ymd now_date)) /\
  fields !! "invoice_number"
  = Some (VStr ("INV-" +:+ Py.str_of_int (timestamp now_number))) /\
  parts_of "receipt.pdf" = ["receipt"] /\
  bare !! "vendor_name" = Some (VStr "Receipt") /\
  bare !! "total_amount" = Some (VFloat 199).
Proof.
  intros Hz fields bare. subst fields bare.
  rewrite !lookup_vendor_name, !lookup_total_amount, lookup_invoice_number.
  rewrite lookup_date.
  rewrite extract_loop_stored, parts_of_stored_path by reflexivity.
  destruct (timestamp_token (timestamp now_file_name)
              {| vendor := "Acme Corp"; total_amount := 199;
                 date_str := strftime_Ymd now_date |} Hz) as [-> Hstep].
  cbn [fold_left]. rewrite Hstep.
  repeat split; reflexivity.
Qed.

Lemma receipt_upload_extraction_witness :
  0 <= timestamp reading_2024_03_05 /\
  mock_ai_extract reading_2024_03_05 reading_2024_03_05
    (stored_path reading_2024_03_05 "receipt.pdf") !! "vendor_name"
  = Some (VStr "Receipt") /\
  mock_ai_extract reading_2024_03_05 reading_2024_03_05
    (stored_path reading_2024_03_05 "receipt.pdf") !! "total_amount"
  = Some (VFloat 1709632800).
Proof.
  assert (H : 0 <= timestamp reading_2024_03_05) by (simpl; lia).
  split; [exact H|].
  pose proof (receipt_upload_extraction
                reading_2024_03_05 reading_2024_03_05 reading_2024_03_05 H)
    as (_ & Hvendor & Hamount & _).
  split; [exact Hvendor | exact Hamount].
Defined.

(** C3, as stated, fails for an upload on 5 March 2024: the result is not
    the defaults, the vendor being "Receipt" and not "Acme Corp". *)
Lemma receipt_upload_not_defaults :
  let fields := mock_ai_extract reading_2024_03_05 reading_2024_03_05
                  (stored_path reading_2024_03_05 "receipt.pdf") in
  ~ (fields !! "vendor_name" = Some (VStr "Acme Corp") /\
     fields !! "total_amount" = Some (VFloat 199) /\
     fields !! "date" = Some (VStr (strftime_Ymd reading_2024_03_05)) /\
     fields !! "invoice_number"
     = Some (VStr ("INV-" +:+ Py.str_of_int (timestamp reading_2024_03_05)))).
Proof.
  intros fields (Hvendor & _). subst fields.
  rewrite lookup_vendor_name in Hvendor. vm_compute in Hvendor. discriminate.
Qed.

(** The bare name does not give the defaults either. *)
Example receipt_bare_name :
  vendor (extract_loop reading_2024_03_05 "receipt.pdf") = "Receipt" /\
  total_amount (extract_loop reading_2024_03_05 "receipt.pdf") = 199%Q /\
  strftime_Ymd reading_2024_03_05 = "2024-03-05".
Proof. repeat split; reflexivity. Qed.

(** ** Facts about the document store *)

Section StoreFacts.

Implicit Types (db : Store.mongo) (name : string) (c : gmap N document)
  (d fields : document) (o : N).

Lemma collection_with_same db name c :
  Store.collection (Store.with_collection db name c) name = c.
Proof. unfold Store.collection, Store.with_collection. simpl. by rewrite lookup_insert_eq. Qed.

Lemma collection_with_other db name name' c :
  name <> name' ->
  Store.collection (Store.with_collection db name c) name' = Store.collection db name'.
Proof.
  intros Hne. unfold Store.collection, Store.with_collection. simpl.
  by rewrite lookup_insert_ne.
Qed.

Lemma patched_by_absent fields d d' (k : string) :
  patched_by fields d d' -> fields !! k = None -> d' !! k = d !! k.
Proof.
  intros [-> | ->] Hk; [done|].
  by rewrite lookup_union_r.
Qed.

Lemma patched_by_null fields d d' (k : string) :
  patched_by fields d d' -> fields !! k <> Some VNone ->
  d' !! k = Some VNone -> d !! k = Some VNone.
Proof.
  intros [-> | ->] Hk; [done|].
  destruct (fields !! k) as [v|] eqn:Hf.
  - rewrite (lookup_union_Some_l _ _ _ _ Hf). intros [= ->]. done.
  - by rewrite lookup_union_r.
Qed.

(** The three outcomes of [update_one]. *)
Lemma update_one_cases fault name flt fields db :
  (exists e, Store.update_one fault name flt fields db = (inl e, db)) \/
  (Store.update_one fault name flt fields db
   = (inr {| Store.matched_count := 0 |}, db) /\
   forall d, Store.collection db name !! Store.by_id flt = Some d ->
             Store.matches flt d = false) \/
  (exists d, Store.collection db name !! Store.by_id flt = Some d /\
             Store.matches flt d = true /\
             fault = None /\
             (Store.rejects_empty_set db = true -> fields <> ∅) /\
             Store.update_one fault name flt fields db
             = (inr {| Store.matched_count := 1 |},
                Store.with_collection db name
                  (<[Store.by_id flt := fields ∪ d]> (Store.collection db name)))).
Proof.
  unfold Store.update_one. destruct fault as [e|]; [left; eauto|].
  destruct (Store.rejects_empty_set db && bool_decide (fields = ∅)) eqn:Hrej;
    [left; eauto|].
  destruct (Store.collection db name !! Store.by_id flt) as [d|] eqn:Hd.
  - destruct (Store.matches flt d) eqn:Hm.
    + right; right. exists d. repeat split; try done.
      intros Hr ->. rewrite Hr in Hrej. by rewrite bool_decide_eq_true_2 in Hrej.
    + right; left. split; [done|]. by intros ? [= <-].
  - right; left. split; [done|]. done.
Qed.

(** [update_one] creates and deletes no document, and changes a document
    only by patching it. *)
Lemma update_one_frame fault name flt fields db name' o :
  option_Forall2 (patched_by fields)
    (Store.collection db name' !! o)
    (Store.collection (Store.update_one fault name flt fields db).2 name' !! o).
Proof.
  assert (Hrefl : forall x : option document, option_Forall2 (patched_by fields) x x).
  { intros [d|]; constructor. by left. }
  destruct (update_one_cases fault name flt fields db)
    as [[e ->] | [[-> _] | (d & Hd & _ & _ & _ & ->)]]; simpl; try apply Hrefl.
  destruct (decide (name = name')) as [<-|Hne].
  - rewrite collection_with_same.
    destruct (decide (Store.by_id flt = o)) as [<-|Hno].
    + rewrite Hd, lookup_insert_eq. constructor. by right.
    + rewrite lookup_insert_ne by done. apply Hrefl.
  - rewrite collection_with_other by done. apply Hrefl.
Qed.

Lemma insert_one_fresh name d db :
  Store.collection db name !! fresh (dom (Store.collection db name)) = None.
Proof. apply not_elem_of_dom, is_fresh. Qed.

End StoreFacts.

(** ** [update_invoice] *)

Lemma updates_of_lookup (payload : UpdateInvoiceRequest.t) (k : string) :
  updates_of payload !! k = requested payload k.
Proof.
  unfold updates_of, requested, UpdateInvoiceRequest.model_dump_items.
  destruct payload as [id [n|] [v|] [d|] [a|] [s|]]; simpl;
    repeat case_decide; subst; simplify_map_eq; done.
Qed.

Lemma world_eta (w : world) : {| db := db w; files := files w |} = w.
Proof. by destruct w. Qed.

Lemma matches_owner (o : N) (user : string) (d : document) :
  Store.matches {| Store.by_id := o; Store.by_fields := [("user_id", VStr user)] |} d
  = bool_decide (d !! "user_id" = Some (VStr user)).
Proof. unfold Store.matches. simpl. by rewrite andb_true_r. Qed.

(** A call of [update_invoice] by an identified caller either answers 400
    and changes nothing, or patches the caller's invoice and answers ok. *)
Lemma update_invoice_cases fault (payload : UpdateInvoiceRequest.t) (user : string)
    (w : world) :
  (exists detail,
      update_invoice fault payload (Some user) w
      = (inl (HTTPException 400 detail), w)) \/
  (exists o d,
      Bson.ObjectId (UpdateInvoiceRequest.invoice_id payload) = inr o /\
      Store.collection (db w) "invoice" !! o = Some d /\
      d !! "user_id" = Some (VStr user) /\
      fault = None /\
      (Store.rejects_empty_set (db w) = true -> updates_of payload <> ∅) /\
      update_invoice fault payload (Some user) w
      = (inr {[ "ok" := VBool true ]},
         {| db := Store.with_collection (db w) "invoice"
                    (<[o := updates_of payload ∪ d]>
                       (Store.collection (db w) "invoice"));
            files := files w |})).
Proof.
  unfold update_invoice, bind, try_except, lift, on_db, raise, ret.
  destruct (Bson.ObjectId _) as [e|o] eqn:Ho; [left; eauto|].
  destruct (update_one_cases fault "invoice"
              {| Store.by_id := o; Store.by_fields := [("user_id", VStr user)] |}
              (updates_of payload) (db w))
    as [[e He] | [[He Hno] | (d & Hd & Hm & -> & Hrej & He)]];
    rewrite He; simpl; rewrite ?world_eta.
  - left; eauto.
  - left; eauto.
  - right. exists o, d. rewrite matches_owner in Hm.
    apply bool_decide_eq_true in Hm. done.
Qed.

Lemma update_one_unmatched name flt fields (db : Store.mongo) :
  (Store.rejects_empty_set db = false \/ fields <> ∅) ->
  (forall d, Store.collection db name !! Store.by_id flt = Some d ->
             Store.matches flt d = false) ->
  Store.update_one None name flt fields db
  = (inr {| Store.matched_count := 0 |}, db).
Proof.
  intros Hrej Hno. unfold Store.update_one.
  replace (Store.rejects_empty_set db && bool_decide (fields = ∅)) with false.
  2:{ symmetry. destruct Hrej as [-> | Hne]; [done|].
      by rewrite (bool_decide_eq_false_2 _ Hne), andb_false_r. }
  destruct (Store.collection db name !! Store.by_id flt) as [d|] eqn:Hd; [|done].
  by rewrite (Hno d eq_refl).
Qed.

(** C2: when the identifier is well formed but no invoice with it belongs
    to the caller (it is another owner's, or there is none), [update_invoice]
    changes nothing, yet it answers 400, not 404: the [HTTPException] 404
    that the handler raises for [matched_count == 0] is raised inside the
    [try] block and caught by its own [except Exception], which turns it into
    a 400 whose detail is the text of the 404. *)
Theorem update_invoice_unmatched_answers_400 fault
    (payload : UpdateInvoiceRequest.t) (user : string) (w : world) (o : N) :
  Bson.ObjectId (UpdateInvoiceRequest.invoice_id payload) = inr o ->
  (forall d, Store.collection (db w) "invoice" !! o = Some d ->
             d !! "user_id" <> Some (VStr user)) ->
  http_status (update_invoice fault payload (Some user) w).1 = 400 /\
  (update_invoice fault payload (Some user) w).2 = w /\
  (fault = None ->
   Store.rejects_empty_set (db w) = false \/ updates_of payload <> ∅ ->
   (update_invoice fault payload (Some user) w).1
   = inl (HTTPException 400 "404: Invoice not found")).
Proof.
  intros Ho Hother. split_and!.
  - destruct (update_invoice_cases fault payload user w)
      as [[detail ->] | (o' & d & Ho' & Hd & Hu & _)]; [done|].
    rewrite Ho in Ho'. injection Ho' as <-. by destruct (Hother d Hd).
  - destruct (update_invoice_cases fault payload user w)
      as [[detail ->] | (o' & d & Ho' & Hd & Hu & _)]; [done|].
    rewrite Ho in Ho'. injection Ho' as <-. by destruct (Hother d Hd).
  - intros -> Hrej.
    unfold update_invoice, bind, try_except, lift, on_db, raise, ret.
    rewrite Ho, update_one_unmatched; [done|done|].
    intros d Hd. rewrite matches_owner.
    apply bool_decide_eq_false_2. by apply Hother.
Qed.

Lemma alice_world_lookup :
  Store.collection (db alice_world) "invoice" !! 0%N = Some alice_invoice.
Proof. reflexivity. Qed.

Lemma alice_invoice_owner : alice_invoice !! "user_id" = Some (VStr "alice").
Proof. reflexivity. Qed.

Lemma update_invoice_unmatched_witness :
  update_invoice None (request_on_alice_invoice None (Some "Approved"))
    (Some "bob") alice_world
  = (inl (HTTPException 400 "404: Invoice not found"), alice_world).
Proof.
  destruct (update_invoice_unmatched_answers_400 None
              (request_on_alice_invoice None (Some "Approved")) "bob"
              alice_world 0%N) as (_ & Hworld & Hresult).
  - reflexivity.
  - intros d Hd. rewrite alice_world_lookup in Hd. injection Hd as <-.
    rewrite alice_invoice_owner. discriminate.
  - specialize (Hresult eq_refl (or_introl eq_refl)).
    rewrite (surjective_pairing (update_invoice _ _ _ _)).
    by rewrite Hworld, Hresult.
Defined.

(** *** Negative amounts *)

(** [schemas.py] declares [total_amount] with [ge=0]: a negative amount
    does not meet the constraints of the fields of [Invoice]. *)
Lemma invoice_schema_rejects_negative (i : Invoice.t) (q : Q) :
  Invoice.total_amount i = Some q -> (q < 0)%Q ->
  exists e, Invoice.check_fields i = inl e.
Proof.
  intros Hq Hneg. unfold Invoice.check_fields. rewrite Hq.
  destruct (Qle_bool 0 q) eqn:Hle; [|eauto].
  apply Qle_bool_iff in Hle. by apply Qle_not_lt in Hle.
Qed.

(** C4: [update_invoice] does not reject a negative amount.  When the
    owner of an invoice sends one, the handler answers ok and the stored
    [total_amount] becomes that negative number: [UpdateInvoiceRequest] has no
    [ge=0] and the patch goes to the store without passing through
    [InvoiceSchema]. *)
Theorem update_invoice_stores_negative_amount
    (payload : UpdateInvoiceRequest.t) (user : string) (w : world) (o : N)
    (d : document) (q : Q) :
  Bson.ObjectId (UpdateInvoiceRequest.invoice_id payload) = inr o ->
  Store.collection (db w) "invoice" !! o = Some d ->
  d !! "user_id" = Some (VStr user) ->
  UpdateInvoiceRequest.total_amount payload = Some q ->
  (q < 0)%Q ->
  exists w',
    update_invoice None payload (Some user) w = (inr {[ "ok" := VBool true ]}, w') /\
    exists d', Store.collection (db w') "invoice" !! o = Some d' /\
               d' !! "total_amount" = Some (VFloat q).
Proof.
  intros Ho Hd Hu Hq _.
  assert (Hpatch : updates_of payload !! "total_amount" = Some (VFloat q)).
  { rewrite updates_of_lookup. unfold requested. simpl. by rewrite Hq. }
  unfold update_invoice, bind, try_except, lift, on_db, raise, ret.
  rewrite Ho. unfold Store.update_one.
  replace (bool_decide (updates_of payload = ∅)) with false.
  2:{ symmetry. apply bool_decide_eq_false_2. intros Hempty.
      by rewrite Hempty in Hpatch. }
  rewrite andb_false_r. cbn [Store.by_id].
  rewrite Hd, matches_owner, (bool_decide_eq_true_2 _ Hu). simpl.
  eexists. split; [reflexivity|]. simpl.
  rewrite collection_with_same, lookup_insert_eq.
  eexists. split; [reflexivity|].
  by rewrite (lookup_union_Some_l _ _ _ _ Hpatch).
Qed.

Lemma update_invoice_stores_negative_amount_witness :
  exists w',
    update_invoice None (request_on_alice_invoice (Some (-5 # 1)%Q) None)
      (Some "alice") alice_world
    = (inr {[ "ok" := VBool true ]}, w') /\
    exists d', Store.collection (db w') "invoice" !! 0%N = Some d' /\
               d' !! "total_amount" = Some (VFloat (-5 # 1)).
Proof.
  apply (update_invoice_stores_negative_amount
           (request_on_alice_invoice (Some (-5 # 1)%Q) None) "alice" alice_world
           0%N alice_invoice (-5 # 1)%Q).
  - reflexivity.
  - apply alice_world_lookup.
  - apply alice_invoice_owner.
  - reflexivity.
  - reflexivity.
Defined.

(** *** The patch and its frame *)

Lemma updates_of_not_null (payload : UpdateInvoiceRequest.t) (k : string) :
  updates_of payload !! k <> Some VNone.
Proof.
  rewrite updates_of_lookup. unfold requested.
  destruct payload as [id [n|] [v|] [d|] [a|] [s|]]; simpl;
    repeat case_decide; done.
Qed.

Lemma updates_of_other_key (payload : UpdateInvoiceRequest.t) (k : string) :
  k ∉ ["invoice_number"; "vendor_name"; "date"; "total_amount"; "status"] ->
  updates_of payload !! k = None.
Proof.
  intros Hk. rewrite updates_of_lookup. unfold requested.
  repeat case_decide; subst; try done; exfalso; apply Hk; set_solver.
Qed.

Lemma update_invoice_frame fault (payload : UpdateInvoiceRequest.t)
    (current_user : option string) (w : world) (name : string) (o : N) :
  option_Forall2 (patched_by (updates_of payload))
    (Store.collection (db w) name !! o)
    (Store.collection (db (update_invoice fault payload current_user w).2) name !! o).
Proof.
  assert (Hrefl : forall x : option document,
             option_Forall2 (patched_by (updates_of payload)) x x).
  { intros [d|]; constructor. by left. }
  destruct current_user as [user|]; [|apply Hrefl].
  destruct (update_invoice_cases fault payload user w)
    as [[detail ->] | (o' & d & _ & Hd & _ & _ & _ & ->)]; [apply Hrefl|].
  simpl. destruct (decide ("invoice" = name)) as [<-|Hne].
  - rewrite collection_with_same.
    destruct (decide (o' = o)) as [<-|Hno].
    + rewrite Hd, lookup_insert_eq. constructor. by right.
    + rewrite lookup_insert_ne by done. apply Hrefl.
  - rewrite collection_with_other by done. apply Hrefl.
Qed.

Lemma update_invoice_files fault (payload : UpdateInvoiceRequest.t)
    (current_user : option string) (w : world) :
  files (update_invoice fault payload current_user w).2 = files w.
Proof.
  destruct current_user as [user|]; [|done].
  by destruct (update_invoice_cases fault payload user w)
    as [[detail ->] | (o' & d & _ & _ & _ & _ & _ & ->)].
Qed.

(** C7: in every call of [update_invoice] the patch holds exactly the
    fields of the request that are not null, each with the value requested;
    no document is created or deleted, and in every stored document a field
    that is absent from the patch keeps its value; and since the patch never
    holds a null, a stored field that is null afterwards was null before. *)
Theorem update_invoice_applies_non_null_fields fault
    (payload : UpdateInvoiceRequest.t) (current_user : option string) (w : world) :
  let patch := updates_of payload in
  let w' := (update_invoice fault payload current_user w).2 in
  patch !! "invoice_number" = VStr <$> UpdateInvoiceRequest.invoice_number payload /\
  patch !! "vendor_name" = VStr <$> UpdateInvoiceRequest.vendor_name payload /\
  patch !! "date" = VStr <$> UpdateInvoiceRequest.date payload /\
  patch !! "total_amount" = VFloat <$> UpdateInvoiceRequest.total_amount payload /\
  patch !! "status" = VStr <$> UpdateInvoiceRequest.status payload /\
  (forall k, k ∉ ["invoice_number"; "vendor_name"; "date"; "total_amount"; "status"] ->
             patch !! k = None) /\
  (forall k, patch !! k <> Some VNone) /\
  forall name o,
    option_Forall2
      (fun d d' : document =>
         forall k, (patch !! k = None -> d' !! k = d !! k) /\
                   (d' !! k = Some VNone -> d !! k = Some VNone))
      (Store.collection (db w) name !! o)
      (Store.collection (db w') name !! o).
Proof.
  intros patch w'. subst patch w'.
  split_and!; try (by rewrite updates_of_lookup).
  - apply updates_of_other_key.
  - apply updates_of_not_null.
  - intros name o.
    destruct (update_invoice_frame fault payload current_user w name o)
      as [d d' Hp|]; constructor.
    intros k. split.
    + by apply patched_by_absent.
    + apply (patched_by_null _ _ _ _ Hp), updates_of_not_null.
Qed.

(** *** The empty patch *)

Lemma updates_of_empty (payload : UpdateInvoiceRequest.t) :
  UpdateInvoiceRequest.invoice_number payload = None ->
  UpdateInvoiceRequest.vendor_name payload = None ->
  UpdateInvoiceRequest.date payload = None ->
  UpdateInvoiceRequest.total_amount payload = None ->
  UpdateInvoiceRequest.status payload = None ->
  updates_of payload = ∅.
Proof.
  intros Hn Hv Hd Ha Hs. apply map_eq. intros k.
  rewrite updates_of_lookup, lookup_empty. unfold requested.
  rewrite Hn, Hv, Hd, Ha, Hs. by repeat case_decide.
Qed.

(** When the identifier is well formed and the request sets none of the
    five fields, the patch is the empty document; on a store that rejects an
    empty [$set], the call answers 400 and changes nothing, whether or not
    the invoice is the caller's. *)
Lemma update_invoice_empty_patch_rejected fault
    (payload : UpdateInvoiceRequest.t) (user : string) (w : world) (o : N) :
  Bson.ObjectId (UpdateInvoiceRequest.invoice_id payload) = inr o ->
  UpdateInvoiceRequest.invoice_number payload = None ->
  UpdateInvoiceRequest.vendor_name payload = None ->
  UpdateInvoiceRequest.date payload = None ->
  UpdateInvoiceRequest.total_amount payload = None ->
  UpdateInvoiceRequest.status payload = None ->
  Store.rejects_empty_set (db w) = true ->
  updates_of payload = ∅ /\
  http_status (update_invoice fault payload (Some user) w).1 = 400 /\
  (update_invoice fault payload (Some user) w).2 = w /\
  (fault = None ->
   (update_invoice fault payload (Some user) w).1
   = inl (HTTPException 400 (str_exn Store.empty_set_error))).
Proof.
  intros Ho Hn Hv Hd Ha Hs Hrej.
  pose proof (updates_of_empty payload Hn Hv Hd Ha Hs) as Hempty.
  split; [exact Hempty|].
  split_and!.
  - destruct (update_invoice_cases fault payload user w)
      as [[detail ->] | (o' & d & _ & _ & _ & _ & Hne & _)]; [done|].
    by destruct (Hne Hrej).
  - destruct (update_invoice_cases fault payload user w)
      as [[detail ->] | (o' & d & _ & _ & _ & _ & Hne & _)]; [done|].
    by destruct (Hne Hrej).
  - intros ->.
    unfold update_invoice, bind, try_except, lift, on_db, raise, ret.
    rewrite Ho. unfold Store.update_one.
    by rewrite Hrej, Hempty, bool_decide_eq_true_2.
Qed.

(** On a store that accepts an empty [$set], the same call on the caller's
    own invoice succeeds and changes nothing. *)
Lemma update_invoice_empty_patch_accepted
    (payload : UpdateInvoiceRequest.t) (user : string) (w : world) (o : N)
    (d : document) :
  Bson.ObjectId (UpdateInvoiceRequest.invoice_id payload) = inr o ->
  updates_of payload = ∅ ->
  Store.rejects_empty_set (db w) = false ->
  Store.collection (db w) "invoice" !! o = Some d ->
  d !! "user_id" = Some (VStr user) ->
  update_invoice None payload (Some user) w = (inr {[ "ok" := VBool true ]}, w).
Proof.
  intros Ho Hempty Hrej Hd Hu.
  unfold update_invoice, bind, try_except, lift, on_db, raise, ret.
  rewrite Ho. unfold Store.update_one. rewrite Hrej. cbn [andb Store.by_id].
  rewrite Hd, matches_owner, (bool_decide_eq_true_2 _ Hu). simpl.
  do 2 f_equal. rewrite Hempty, (left_id_L ∅ (∪)), (insert_id _ _ _ Hd).
  destruct w as [[colls rej] fs]. unfold Store.with_collection. simpl in *.
  do 2 f_equal. apply insert_id.
  unfold Store.collection in *. simpl in *.
  destruct (colls !! "invoice") as [c|]; [done|]. by simplify_map_eq.
Qed.

(** On a store that accepts an empty [$set], the call on an identifier that
    names no invoice of the caller answers 400 with the text of the 404. *)
Lemma update_invoice_empty_patch_unmatched
    (payload : UpdateInvoiceRequest.t) (user : string) (w : world) (o : N) :
  Bson.ObjectId (UpdateInvoiceRequest.invoice_id payload) = inr o ->
  Store.rejects_empty_set (db w) = false ->
  (forall d, Store.collection (db w) "invoice" !! o = Some d ->
             d !! "user_id" <> Some (VStr user)) ->
  update_invoice None payload (Some user) w
  = (inl (HTTPException 400 "404: Invoice not found"), w).
Proof.
  intros Ho Hrej Hother.
  unfold update_invoice, bind, try_except, lift, on_db, raise, ret.
  rewrite Ho, update_one_unmatched; [by rewrite world_eta|by left|].
  intros d Hd. rewrite matches_owner.
  apply bool_decide_eq_false_2. by apply Hother.
Qed.

(** The claim of C10 fails on a store that accepts an empty [$set]: alice's
    request with the five fields absent, on her own invoice, has the empty
    patch, and the call succeeds as a no-op instead of answering 400. *)
Lemma update_invoice_empty_patch_is_noop :
  updates_of (request_on_alice_invoice None None) = ∅ /\
  update_invoice None (request_on_alice_invoice None None) (Some "alice")
    alice_world
  = (inr {[ "ok" := VBool true ]}, alice_world) /\
  http_status
    (update_invoice None (request_on_alice_invoice None None) (Some "alice")
       alice_world).1 <> 400.
Proof.
  assert (Hrun : update_invoice None (request_on_alice_invoice None None)
                   (Some "alice") alice_world
                 = (inr {[ "ok" := VBool true ]}, alice_world)).
  { apply (update_invoice_empty_patch_accepted _ _ _ 0%N alice_invoice).
    - reflexivity.
    - by apply updates_of_empty.
    - reflexivity.
    - apply alice_world_lookup.
    - apply alice_invoice_owner. }
  split; [by apply updates_of_empty|]. split; [exact Hrun|].
  rewrite Hrun. discriminate.
Qed.

(** C10, as amended: when the identifier is well formed and the request
    sets none of the five fields, the patch is the empty document and the
    call changes nothing; its answer depends on the store.  On a store that
    rejects an empty [$set] the call answers 400.  On a store that accepts
    it, the call succeeds as a no-op when the identifier names an invoice of
    the caller, and answers 400 with the text of the 404 when it names
    none. *)
Theorem update_invoice_empty_patch
    (payload : UpdateInvoiceRequest.t) (user : string) (w : world) (o : N) :
  Bson.ObjectId (UpdateInvoiceRequest.invoice_id payload) = inr o ->
  UpdateInvoiceRequest.invoice_number payload = None ->
  UpdateInvoiceRequest.vendor_name payload = None ->
  UpdateInvoiceRequest.date payload = None ->
  UpdateInvoiceRequest.total_amount payload = None ->
  UpdateInvoiceRequest.status payload = None ->
  let owned := exists d, Store.collection (db w) "invoice" !! o = Some d /\
                         d !! "user_id" = Some (VStr user) in
  let answer := (update_invoice None payload (Some user) w).1 in
  updates_of payload = ∅ /\
  (update_invoice None payload (Some user) w).2 = w /\
  (Store.rejects_empty_set (db w) = true ->
   answer = inl (HTTPException 400 (str_exn Store.empty_set_error))) /\
  (Store.rejects_empty_set (db w) = false -> owned ->
   answer = inr {[ "ok" := VBool true ]}) /\
  (Store.rejects_empty_set (db w) = false -> ~ owned ->
   answer = inl (HTTPException 400 "404: Invoice not found")).
Proof.
  intros Ho Hn Hv Hd Ha Hs owned answer. subst answer.
  pose proof (updates_of_empty payload Hn Hv Hd Ha Hs) as Hempty.
  assert (Hcases : Store.rejects_empty_set (db w) = false ->
                   owned \/ ~ owned).
  { intros _. subst owned.
    destruct (Store.collection (db w) "invoice" !! o) as [d|] eqn:Hdoc.
    - destruct (decide (d !! "user_id" = Some (VStr user))) as [Hu|Hu].
      + left. eauto.
      + right. intros (d' & [= <-] & Hu'). done.
    - right. by intros (d' & [=] & _). }
  assert (Hnot : ~ owned ->
                 forall d, Store.collection (db w) "invoice" !! o = Some d ->
                           d !! "user_id" <> Some (VStr user)).
  { intros Hno d Hdoc Hu. apply Hno. by exists d. }
  split; [exact Hempty|]. split_and!.
  - destruct (Store.rejects_empty_set (db w)) eqn:Hrej.
    + by destruct (update_invoice_empty_patch_rejected None payload user w o
                     Ho Hn Hv Hd Ha Hs Hrej) as (_ & _ & -> & _).
    + destruct (Hcases eq_refl) as [(d & Hdoc & Hu) | Hno].
      * by rewrite (update_invoice_empty_patch_accepted payload user w o d).
      * by rewrite (update_invoice_empty_patch_unmatched payload user w o
                      Ho Hrej (Hnot Hno)).
  - intros Hrej.
    destruct (update_invoice_empty_patch_rejected None payload user w o
                Ho Hn Hv Hd Ha Hs Hrej) as (_ & _ & _ & Hans).
    by apply Hans.
  - intros Hrej (d & Hdoc & Hu).
    by rewrite (update_invoice_empty_patch_accepted payload user w o d).
  - intros Hrej Hno.
    by rewrite (update_invoice_empty_patch_unmatched payload user w o
                  Ho Hrej (Hnot Hno)).
Qed.

Lemma update_invoice_empty_patch_witness :
  update_invoice None (request_on_alice_invoice None None) (Some "bob")
    alice_world
  = (inl (HTTPException 400 "404: Invoice not found"), alice_world).
Proof.
  destruct (update_invoice_empty_patch (request_on_alice_invoice None None)
              "bob" alice_world 0%N)
    as (_ & Hworld & _ & _ & Hanswer).
  - reflexivity.
  - reflexivity.
  - reflexivity.
  - reflexivity.
  - reflexivity.
  - reflexivity.
  - rewrite (surjective_pairing (update_invoice _ _ _ _)).
    rewrite Hworld, Hanswer; [reflexivity|reflexivity|].
    intros (d & Hdoc & Hu). rewrite alice_world_lookup in Hdoc.
    apply (inj Some) in Hdoc. subst d.
    rewrite alice_invoice_owner in Hu. discriminate Hu.
Defined.

(** ** [create_user] *)

(** C8: a call of [create_user] whose tier and role the [User] schema
    accepts, on a store that carries out the insertion, answers the new
    identifier, and the user stored under it has 50 credits when the tier is
    "Free" and 1000 otherwise (that is, for "Pro", the only other tier the
    schema accepts). *)
Theorem create_user_credits (payload : CreateUserRequest.t) (w : world) :
  CreateUserRequest.subscription_tier payload ∈ ["Free"; "Pro"] ->
  CreateUserRequest.role payload ∈ ["admin"; "customer"] ->
  let users := Store.collection (db w) "user" in
  let o := fresh (dom users) in
  exists w' d,
    create_user None payload w = (inr {[ "id" := VStr (Bson.str o) ]}, w') /\
    users !! o = None /\
    Store.collection (db w') "user" !! o = Some d /\
    d !! "subscription_tier"
    = Some (VStr (CreateUserRequest.subscription_tier payload)) /\
    (CreateUserRequest.subscription_tier payload = "Free" ->
     d !! "credits_remaining" = Some (VInt 50)) /\
    (CreateUserRequest.subscription_tier payload <> "Free" ->
     d !! "credits_remaining" = Some (VInt 1000)).
Proof.
  intros Htier Hrole users o.
  unfold create_user, create_document, bind, lift, on_db, ret, User.validate.
  cbn [User.subscription_tier User.credits_remaining User.role].
  rewrite (bool_decide_eq_true_2 _ Htier), (bool_decide_eq_true_2 _ Hrole).
  replace (_ <? 0) with false by (by destruct (String.eqb _ _)).
  cbn [negb Store.insert_one]. fold users o.
  eexists _, _. split; [reflexivity|]. cbn [db].
  rewrite collection_with_same, lookup_insert_eq.
  split; [apply not_elem_of_dom, is_fresh|].
  split; [reflexivity|].
  unfold User.model_dump. cbn [User.subscription_tier User.credits_remaining].
  split_and!.
  - by rewrite !lookup_insert_ne, lookup_insert_eq by done.
  - intros ->. by rewrite !lookup_insert_ne, lookup_insert_eq by done.
  - intros Hne%String.eqb_neq. rewrite Hne.
    by rewrite !lookup_insert_ne, lookup_insert_eq by done.
Qed.

Lemma create_user_credits_witness :
  exists w' d,
    create_user None
      {| CreateUserRequest.name := "Bob"; CreateUserRequest.email := "bob@example.org";
         CreateUserRequest.subscription_tier := "Pro";
         CreateUserRequest.role := "customer" |} alice_world
    = (inr {[ "id" := VStr "000000000000000000000000" ]}, w') /\
    Store.collection (db w') "user" !! 0%N = Some d /\
    d !! "credits_remaining" = Some (VInt 1000).
Proof.
  destruct (create_user_credits
              {| CreateUserRequest.name := "Bob";
                 CreateUserRequest.email := "bob@example.org";
                 CreateUserRequest.subscription_tier := "Pro";
                 CreateUserRequest.role := "customer" |} alice_world)
    as (w' & d & Hrun & _ & Hd & _ & _ & Hcredits).
  - simpl. set_solver.
  - simpl. set_solver.
  - exists w', d. split; [exact Hrun|]. split; [exact Hd|].
    apply Hcredits. discriminate.
Defined.

(** A tier outside the schema makes the handler raise before anything is
    stored. *)
Lemma create_user_rejects_other_tiers fault (payload : CreateUserRequest.t) (w : world) :
  CreateUserRequest.subscription_tier payload ∉ ["Free"; "Pro"] ->
  create_user fault payload w = (inl (validation_error "subscription_tier"), w).
Proof.
  intros Htier.
  unfold create_user, create_document, bind, lift, on_db, ret, User.validate.
  cbn [User.subscription_tier].
  by rewrite (bool_decide_eq_false_2 _ Htier).
Qed.

(** ** [upload_invoice] *)

(** The patch step never raises; it creates and deletes no document, changes
    a document only by patching it, and changes nothing when the store call
    fails. *)
Lemma patch_invoice_swallows fault (invoice_id : string) (fields : document)
    (w : world) :
  exists w',
    patch_invoice fault invoice_id fields w = (inr tt, w') /\
    files w' = files w /\
    (forall name o,
        option_Forall2 (patched_by fields)
          (Store.collection (db w) name !! o)
          (Store.collection (db w') name !! o)) /\
    (fault <> None -> w' = w).
Proof.
  assert (Hrefl : forall (x : option document),
             option_Forall2 (patched_by fields) x x).
  { intros [d|]; constructor. by left. }
  unfold patch_invoice, try_except, bind, lift, on_db, ret.
  destruct (Bson.ObjectId invoice_id) as [e|o]; [by exists w|].
  pose proof (update_one_frame fault "invoice"
                {| Store.by_id := o; Store.by_fields := [] |} fields (db w)) as Hframe.
  destruct fault as [e|].
  - simpl. rewrite world_eta. by exists w.
  - destruct (Store.update_one None _ _ _ _) as [[e|res] db'] eqn:Hupd.
    + destruct (update_one_cases None "invoice"
                  {| Store.by_id := o; Store.by_fields := [] |} fields (db w))
        as [[e' He] | [[He _] | (d & _ & _ & _ & _ & He)]];
        rewrite He in Hupd; try done.
      injection Hupd as <- <-. rewrite world_eta. by exists w.
    + eexists. split; [reflexivity|]. split; [done|]. split; [|done].
      intros name o'. apply (Hframe name o').
Qed.


Lemma extracted_without_status (n d : datetime) (path : string) :
  mock_ai_extract n d path !! "status" = None.
Proof. unfold mock_ai_extract. by rewrite !lookup_insert_ne, lookup_empty by done. Qed.

Lemma extracted_without_id (n d : datetime) (path : string) :
  mock_ai_extract n d path !! "id" = None.
Proof. unfold mock_ai_extract. by rewrite !lookup_insert_ne, lookup_empty by done. Qed.

Lemma extracted_keys (n d : datetime) (path : string) :
  dom (mock_ai_extract n d path)
  = ({["vendor_name"; "invoice_number"; "total_amount"; "date"]} : gset string).
Proof.
  unfold mock_ai_extract. rewrite !dom_insert_L, dom_empty_L.
  apply set_eq. intros k. rewrite !elem_of_union, !elem_of_singleton.
  rewrite elem_of_empty. tauto.
Qed.




(** ** [ObjectId] round trip *)

Lemma hex_value_char (m : N) : (m < 16)%N -> Bson.hex_value (Bson.hex_char m) = Some m.
Proof.
  intros Hm.
  assert (Hcases : In m (map N.of_nat (seq 0 16))).
  { apply in_map_iff. exists (N.to_nat m). split; [apply N2Nat.id|].
    apply in_seq. lia. }
  simpl in Hcases.
  repeat (destruct Hcases as [<- | Hcases]; [reflexivity|]). done.
Qed.

Lemma parse_hex_digits (k : nat) (n : N) (rest : string) (acc : N) :
  Bson.parse_hex (Bson.hex_digits k n rest) acc
  = Bson.parse_hex rest (acc * 16 ^ N.of_nat k + n mod 16 ^ N.of_nat k)%N.
Proof.
  revert n rest acc. induction k as [|k IH]; intros n rest acc.
  - simpl. f_equal. rewrite N.mod_1_r. lia.
  - cbn [Bson.hex_digits]. rewrite IH. cbn [Bson.parse_hex].
    rewrite hex_value_char by (apply N.mod_lt; lia).
    f_equal. rewrite Nat2N.inj_succ, N.pow_succ_r'.
    rewrite N.Div0.mod_mul_r. ring.
Qed.

Lemma len_hex_digits (k : nat) (n : N) (rest : string) :
  Py.len (Bson.hex_digits k n rest) = (k + Py.len rest)%nat.
Proof.
  revert n rest. induction k as [|k IH]; intros n rest; [done|].
  cbn [Bson.hex_digits]. rewrite IH. simpl. lia.
Qed.

(** [ObjectId(str(o)) == o] for a twelve-byte identifier. *)
Lemma ObjectId_str (o : N) : (o < 2 ^ 96)%N -> Bson.ObjectId (Bson.str o) = inr o.
Proof.
  intros Ho. unfold Bson.ObjectId, Bson.str.
  rewrite len_hex_digits, parse_hex_digits. cbn [Py.len Nat.add Nat.eqb Bson.parse_hex].
  f_equal. change (16 ^ N.of_nat 24)%N with (2 ^ 96)%N.
  rewrite N.mod_small by done. lia.
Qed.

(** ** Further facts on the handlers *)

(** A malformed identifier is a 400, and nothing changes. *)
Lemma update_invoice_malformed_id fault (payload : UpdateInvoiceRequest.t)
    (user : string) (w : world) (e : pyexn) :
  Bson.ObjectId (UpdateInvoiceRequest.invoice_id payload) = inl e ->
  update_invoice fault payload (Some user) w
  = (inl (HTTPException 400 (str_exn e)), w).
Proof.
  intros He. unfold update_invoice, bind, try_except, lift, raise.
  by rewrite He.
Qed.

(** Without the identity header the protected handlers answer 401. *)
Lemma handlers_need_identity fault env (payload : UpdateInvoiceRequest.t)
    (file : UploadFile) (w : world) :
  update_invoice fault payload (get_current_user_id None) w
  = (inl (HTTPException 401 "Missing x-user-id header"), w) /\
  upload_invoice env file (get_current_user_id None) w
  = (inl (HTTPException 401 "Missing x-user-id header"), w).
Proof. by split. Qed.

(** The current date, as [strftime_Ymd] prints it for a four-digit year, has
    itself the shape the date rule looks for. *)
Lemma padded_len (width : nat) (lo n z : Z) :
  forallb (fun i => (Py.len (Py.zfill width (Py.str_of_int i)) =? width)%nat)
          (seqZ lo n) = true ->
  lo <= z < lo + n ->
  Py.len (Py.zfill width (Py.str_of_int z)) = width.
Proof.
  intros Hall Hz. rewrite forallb_forall in Hall.
  apply Nat.eqb_eq, Hall, list_elem_of_In, elem_of_seqZ. lia.
Qed.

Lemma date_rule_shape (y m d : string) :
  Py.len y = 4%nat -> Py.len m = 2%nat -> Py.len d = 2%nat ->
  date_rule (y +:+ "-" +:+ m +:+ "-" +:+ d) = true.
Proof.
  intros Hy Hm Hd.
  destruct y as [|y1 [|y2 [|y3 [|y4 [|]]]]]; try discriminate Hy.
  destruct m as [|m1 [|m2 [|]]]; try discriminate Hm.
  destruct d as [|d1 [|d2 [|]]]; try discriminate Hd.
  reflexivity.
Qed.

Lemma strftime_Ymd_shape (dt : datetime) :
  1000 <= year dt <= 9999 -> 1 <= month dt <= 12 -> 1 <= day dt <= 31 ->
  date_rule (strftime_Ymd dt) = true.
Proof.
  intros Hy Hm Hd. unfold strftime_Ymd. apply date_rule_shape.
  - apply (padded_len 4 1000 9000); [by vm_compute | lia].
  - apply (padded_len 2 1 12); [by vm_compute | lia].
  - apply (padded_len 2 1 31); [by vm_compute | lia].
Qed.

(** ** Laws of the extraction heuristic *)

(** The loop variables after one token, field by field. *)
Lemma extract_step_amount (st : extracted) (p : string) :
  total_amount (extract_step st p)
  = if amount_rule p then
      match Py.float p with inr x => x | inl _ => total_amount st end
    else total_amount st.
Proof.
  unfold extract_step.
  destruct (amount_rule p), (Py.float p), (vendor_rule p), (date_rule p); reflexivity.
Qed.

Lemma extract_step_vendor (st : extracted) (p : string) :
  vendor (extract_step st p) = if vendor_rule p then Py.capitalize p else vendor st.
Proof.
  unfold extract_step.
  destruct (amount_rule p), (Py.float p), (vendor_rule p), (date_rule p); reflexivity.
Qed.

Lemma extract_fold_amount_skip (l : list string) (st : extracted) :
  Forall (fun p => amount_rule p = false) l ->
  total_amount (fold_left extract_step l st) = total_amount st.
Proof.
  revert st. induction l as [|p l IH]; intros st Hl; simpl; [done|].
  inversion Hl as [|? ? Hp Hl']; subst.
  by rewrite IH, extract_step_amount, Hp.
Qed.

Lemma extract_fold_vendor_skip (l : list string) (st : extracted) :
  Forall (fun p => vendor_rule p = false) l ->
  vendor (fold_left extract_step l st) = vendor st.
Proof.
  revert st. induction l as [|p l IH]; intros st Hl; simpl; [done|].
  inversion Hl as [|? ? Hp Hl']; subst.
  by rewrite IH, extract_step_vendor, Hp.
Qed.

(** [s.replace(c, "", 1)] is [s] without its first [c]. *)
Lemma replace_none_left (c : ascii) (new s : string) :
  Py.replace c new (Some 0%nat) s = s.
Proof.
  induction s as [|x s IH]; simpl; [done|].
  destruct (Ascii.eqb x c); [done|]. by rewrite IH.
Qed.

Lemma replace_first_cut (c : ascii) (s : string) :
  Py.replace c "" (Some 1%nat) s = (Py.cut_at c s).1 +:+ (Py.cut_at c s).2.
Proof.
  induction s as [|x s IH]; simpl; [done|].
  destruct (Ascii.eqb x c).
  - simpl. apply replace_none_left.
  - rewrite IH. by destruct (Py.cut_at c s).
Qed.

Lemma digit_char_cases (x : ascii) :
  Py.is_digit_char x = true ->
  In x ["0"; "1"; "2"; "3"; "4"; "5"; "6"; "7"; "8"; "9"]%char.
Proof.
  unfold Py.is_digit_char. intros [H1 H2]%andb_true_iff.
  apply Nat.leb_le in H1, H2.
  assert (Hn : In (nat_of_ascii x) (seq 48 10)) by (apply in_seq; lia).
  rewrite <- (ascii_nat_embedding x).
  simpl in Hn.
  repeat (destruct Hn as [<- | Hn]; [simpl; tauto|]). done.
Qed.

Lemma digits_parse (s : string) :
  Py.all_chars Py.is_digit_char s = true ->
  exists d, NilEmpty.uint_of_string s = Some d.
Proof.
  induction s as [|x s IH]; simpl; [eauto|].
  intros [Hx Hs]%andb_true_iff. destruct (IH Hs) as [d ->].
  apply digit_char_cases in Hx. simpl in Hx.
  repeat (destruct Hx as [<- | Hx]; [simpl; eauto|]). done.
Qed.

(** On a token that passes the guard of the amount rule, [float] returns a
    number, and it is not negative. *)
Lemma float_of_amount_token (p : string) :
  amount_rule p = true -> exists x, Py.float p = inr x /\ (0 <= x)%Q.
Proof.
  unfold amount_rule, Py.float. rewrite replace_first_cut.
  destruct (Py.cut_at "." p) as [ip fp]. cbn [fst snd]. intros Hd. rewrite Hd.
  apply andb_true_iff in Hd as [_ Hall].
  destruct (digits_parse _ Hall) as [d ->].
  eexists. split; [reflexivity|].
  rewrite Qred_correct. unfold Qle. simpl. unfold Z.of_uint. lia.
Qed.

Lemma extract_fold_amount_nonneg (l : list string) (st : extracted) :
  (0 <= total_amount st)%Q -> (0 <= total_amount (fold_left extract_step l st))%Q.
Proof.
  revert st. induction l as [|p l IH]; intros st Hst; simpl; [done|].
  apply IH. rewrite extract_step_amount.
  destruct (amount_rule p) eqn:Hp; [|done].
  by destruct (float_of_amount_token p Hp) as (x & -> & Hx).
Qed.

(** X1: whatever the file name, the amount [mock_ai_extract] returns is a
    number that is not negative. *)
Theorem extracted_amount_nonneg (now_number now_date : datetime) (file_path : string) :
  exists q, mock_ai_extract now_number now_date file_path !! "total_amount"
            = Some (VFloat q) /\ (0 <= q)%Q.
Proof.
  rewrite lookup_total_amount. eexists. split; [reflexivity|].
  unfold extract_loop. by apply extract_fold_amount_nonneg.
Qed.

Lemma extract_fold_vendor_last (l : list string) (st : extracted) :
  vendor (fold_left extract_step l st)
  = match find vendor_rule (rev l) with
    | Some p => Py.capitalize p
    | None => vendor st
    end.
Proof.
  induction l as [|p l IH] using rev_ind; [done|].
  rewrite fold_left_app, rev_app_distr. cbn [fold_left rev app find].
  rewrite extract_step_vendor.
  by destruct (vendor_rule p).
Qed.

(** X3: for a file name of ASCII characters, the vendor is the capitalized
    form of the last token of the name that is alphabetic and has three
    characters or more; with no such token it is the default "Acme Corp". *)
Theorem vendor_from_last_alpha_token (now_number now_date : datetime)
    (file_path : string) :
  is_ascii file_path = true ->
  mock_ai_extract now_number now_date file_path !! "vendor_name"
  = Some (VStr match find vendor_rule (rev (parts_of file_path)) with
               | Some p => Py.capitalize p
               | None => "Acme Corp"
               end).
Proof.
  intros _. rewrite lookup_vendor_name. unfold extract_loop.
  by rewrite extract_fold_vendor_last.
Qed.

Lemma vendor_from_last_alpha_token_witness :
  mock_ai_extract reading_2024_03_05 reading_2024_03_05 "acme-corp_12.pdf"
    !! "vendor_name"
  = Some (VStr "Corp").
Proof.
  exact (vendor_from_last_alpha_token reading_2024_03_05 reading_2024_03_05
           "acme-corp_12.pdf" eq_refl).
Defined.

(** X4: on the path of an upload made at a time stamp that is not negative,
    when no token of the client's file name is numeric, the amount is the
    time stamp itself: the default 199.0 is out of reach. *)
Theorem upload_amount_is_timestamp (now_file_name now_number now_date : datetime)
    (name : string) :
  0 <= timestamp now_file_name ->
  lacks "/" name = true ->
  Forall (fun p => amount_rule p = false) (tokens (upload_stem name)) ->
  mock_ai_extract now_number now_date (stored_path now_file_name name)
    !! "total_amount"
  = Some (VFloat (inject_Z (timestamp now_file_name))).
Proof.
  intros Hz Hname Hnone.
  rewrite lookup_total_amount, extract_loop_stored by done.
  rewrite extract_fold_amount_skip by done.
  destruct (timestamp_token (timestamp now_file_name)
              {| vendor := "Acme Corp"; total_amount := 199;
                 date_str := strftime_Ymd now_date |} Hz) as [-> Hstep].
  cbn [fold_left]. by rewrite Hstep.
Qed.

Lemma upload_amount_is_timestamp_witness :
  mock_ai_extract reading_2024_03_05 reading_2024_03_05
    (stored_path reading_2024_03_05 "scan-of-invoice.final.pdf") !! "total_amount"
  = Some (VFloat 1709632800).
Proof.
  apply (upload_amount_is_timestamp reading_2024_03_05 reading_2024_03_05
           reading_2024_03_05 "scan-of-invoice.final.pdf").
  - simpl. lia.
  - reflexivity.
  - repeat constructor.
Defined.

(** ** More on [update_invoice] *)

(** X5: an [invoice_id] whose length is not 24 makes [update_invoice]
    answer 400 with the text of [bson]'s [InvalidId] as detail, and nothing
    changes; the store call is one that would not have failed. *)
Theorem update_invoice_invalid_id_is_400 (payload : UpdateInvoiceRequest.t)
    (user : string) (w : world) :
  Py.len (UpdateInvoiceRequest.invoice_id payload) <> 24%nat ->
  update_invoice None payload (Some user) w
  = (inl (HTTPException 400
            (Py.repr (UpdateInvoiceRequest.invoice_id payload) +:+
             " is not a valid ObjectId, it must be a 12-byte input or a 24-character hex string")),
     w).
Proof.
  intros Hlen. unfold update_invoice, bind, try_except, lift, raise, Bson.ObjectId.
  apply Nat.eqb_neq in Hlen. by rewrite Hlen.
Qed.

Lemma update_invoice_invalid_id_is_400_witness :
  update_invoice None
    {| UpdateInvoiceRequest.invoice_id := "42";
       UpdateInvoiceRequest.invoice_number := None;
       UpdateInvoiceRequest.vendor_name := None;
       UpdateInvoiceRequest.date := None;
       UpdateInvoiceRequest.total_amount := None;
       UpdateInvoiceRequest.status := Some "Approved" |}
    (Some "alice") alice_world
  = (inl (HTTPException 400
            "'42' is not a valid ObjectId, it must be a 12-byte input or a 24-character hex string"),
     alice_world).
Proof.
  apply (update_invoice_invalid_id_is_400
           {| UpdateInvoiceRequest.invoice_id := "42";
              UpdateInvoiceRequest.invoice_number := None;
              UpdateInvoiceRequest.vendor_name := None;
              UpdateInvoiceRequest.date := None;
              UpdateInvoiceRequest.total_amount := None;
              UpdateInvoiceRequest.status := Some "Approved" |}
           "alice" alice_world).
  simpl. lia.
Defined.

(** X6: [update_invoice] is all or nothing.  When it raises, the error is a
    401 or a 400, never a 404 or a 500, and the database and the files are as
    before; when it returns, the answer is [{"ok": True}]. *)
Theorem update_invoice_all_or_nothing fault (payload : UpdateInvoiceRequest.t)
    (current_user : option string) (w : world) :
  match (update_invoice fault payload current_user w).1 with
  | inl e =>
      (update_invoice fault payload current_user w).2 = w /\
      (http_status (inl e : pyexn + document) = 401
       \/ http_status (inl e : pyexn + document) = 400)
  | inr resp => resp = {[ "ok" := VBool true ]}
  end.
Proof.
  destruct current_user as [user|]; [|simpl; auto].
  destruct (update_invoice_cases fault payload user w)
    as [[detail ->] | (o & d & _ & _ & _ & _ & _ & ->)]; simpl; auto.
Qed.

(** X7: what a successful update does.  When the identifier names an
    invoice of the caller and the patch is not empty, the handler answers ok;
    that invoice takes the requested values and keeps its other fields; the
    other invoices, the other collections and the files do not change. *)
Theorem update_invoice_success (payload : UpdateInvoiceRequest.t) (user : string)
    (w : world) (o : N) (d : document) :
  Bson.ObjectId (UpdateInvoiceRequest.invoice_id payload) = inr o ->
  Store.collection (db w) "invoice" !! o = Some d ->
  d !! "user_id" = Some (VStr user) ->
  updates_of payload <> ∅ ->
  exists w',
    update_invoice None payload (Some user) w = (inr {[ "ok" := VBool true ]}, w') /\
    (exists d',
        Store.collection (db w') "invoice" !! o = Some d' /\
        forall k, d' !! k = match updates_of payload !! k with
                            | Some v => Some v
                            | None => d !! k
                            end) /\
    (forall o', o' <> o ->
        Store.collection (db w') "invoice" !! o' = Store.collection (db w) "invoice" !! o') /\
    (forall name, name <> "invoice" ->
        Store.collection (db w') name = Store.collection (db w) name) /\
    files w' = files w.
Proof.
  intros Ho Hd Hu Hne.
  unfold update_invoice, bind, try_except, lift, on_db, raise, ret.
  rewrite Ho. unfold Store.update_one.
  rewrite (bool_decide_eq_false_2 _ Hne), andb_false_r. cbn [Store.by_id].
  rewrite Hd, matches_owner, (bool_decide_eq_true_2 _ Hu). simpl.
  eexists. split; [reflexivity|]. simpl. split_and!.
  - eexists. rewrite collection_with_same, lookup_insert_eq. split; [done|].
    intros k. destruct (updates_of payload !! k) as [v|] eqn:Hk.
    + by apply lookup_union_Some_l.
    + by apply lookup_union_r.
  - intros o' Hne'. by rewrite collection_with_same, lookup_insert_ne.
  - intros name Hname. by rewrite collection_with_other.
  - done.
Qed.

Lemma update_invoice_success_witness :
  exists w',
    update_invoice None (request_on_alice_invoice None (Some "Approved"))
      (Some "alice") alice_world
    = (inr {[ "ok" := VBool true ]}, w') /\
    exists d', Store.collection (db w') "invoice" !! 0%N = Some d' /\
               d' !! "status" = Some (VStr "Approved") /\
               d' !! "vendor_name" = Some (VStr "Receipt").
Proof.
  destruct (update_invoice_success (request_on_alice_invoice None (Some "Approved"))
              "alice" alice_world 0%N alice_invoice)
    as (w' & Hrun & (d' & Hd' & Hfields) & _).
  - reflexivity.
  - apply alice_world_lookup.
  - apply alice_invoice_owner.
  - intros Hempty.
    assert (H : updates_of (request_on_alice_invoice None (Some "Approved"))
                  !! "status" = Some (VStr "Approved"))
      by (by rewrite updates_of_lookup).
    by rewrite Hempty in H.
  - exists w'. split; [exact Hrun|]. exists d'. split; [exact Hd'|].
    split.
    + rewrite Hfields. by rewrite updates_of_lookup.
    + rewrite Hfields. by rewrite updates_of_lookup.
Defined.

(** X8: no call of [update_invoice] changes the owner, the file path or the
    file name of any stored invoice, and none creates or deletes a document. *)
Theorem update_invoice_keeps_ownership fault (payload : UpdateInvoiceRequest.t)
    (current_user : option string) (w : world) (name : string) (o : N) :
  option_Forall2
    (fun d d' : document =>
       d' !! "user_id" = d !! "user_id" /\
       d' !! "file_path" = d !! "file_path" /\
       d' !! "file_name" = d !! "file_name")
    (Store.collection (db w) name !! o)
    (Store.collection (db (update_invoice fault payload current_user w).2) name !! o).
Proof.
  destruct (update_invoice_frame fault payload current_user w name o)
    as [d d' Hp|]; constructor.
  split_and!; apply (patched_by_absent _ _ _ _ Hp), updates_of_other_key;
    rewrite !not_elem_of_cons; split_and!; try done; apply not_elem_of_nil.
Qed.

(** X9: the status of a request is not checked against the three values of
    the schema: whatever string the owner sends as status is stored. *)
Theorem update_invoice_stores_any_status (payload : UpdateInvoiceRequest.t)
    (user : string) (w : world) (o : N) (d : document) (s : string) :
  Bson.ObjectId (UpdateInvoiceRequest.invoice_id payload) = inr o ->
  Store.collection (db w) "invoice" !! o = Some d ->
  d !! "user_id" = Some (VStr user) ->
  UpdateInvoiceRequest.status payload = Some s ->
  exists w',
    update_invoice None payload (Some user) w = (inr {[ "ok" := VBool true ]}, w') /\
    exists d', Store.collection (db w') "invoice" !! o = Some d' /\
               d' !! "status" = Some (VStr s).
Proof.
  intros Ho Hd Hu Hs.
  assert (Hpatch : updates_of payload !! "status" = Some (VStr s)).
  { rewrite updates_of_lookup. unfold requested. simpl. by rewrite Hs. }
  unfold update_invoice, bind, try_except, lift, on_db, raise, ret.
  rewrite Ho. unfold Store.update_one.
  replace (bool_decide (updates_of payload = ∅)) with false.
  2:{ symmetry. apply bool_decide_eq_false_2. intros Hempty.
      by rewrite Hempty in Hpatch. }
  rewrite andb_false_r. cbn [Store.by_id].
  rewrite Hd, matches_owner, (bool_decide_eq_true_2 _ Hu). simpl.
  eexists. split; [reflexivity|]. simpl.
  rewrite collection_with_same, lookup_insert_eq.
  eexists. split; [reflexivity|].
  by rewrite (lookup_union_Some_l _ _ _ _ Hpatch).
Qed.

Lemma update_invoice_stores_any_status_witness :
  exists w',
    update_invoice None (request_on_alice_invoice None (Some "Paid"))
      (Some "alice") alice_world
    = (inr {[ "ok" := VBool true ]}, w') /\
    exists d', Store.collection (db w') "invoice" !! 0%N = Some d' /\
               d' !! "status" = Some (VStr "Paid").
Proof.
  apply (update_invoice_stores_any_status
           (request_on_alice_invoice None (Some "Paid")) "alice" alice_world
           0%N alice_invoice "Paid").
  - reflexivity.
  - apply alice_world_lookup.
  - apply alice_invoice_owner.
  - reflexivity.
Defined.

(** X10: sending the same update twice is the same as sending it once: the
    second call gives the answer of the first and leaves the world the first
    one made. *)
Theorem update_invoice_idempotent fault (payload : UpdateInvoiceRequest.t)
    (current_user : option string) (w : world) :
  update_invoice fault payload current_user
    (update_invoice fault payload current_user w).2
  = update_invoice fault payload current_user w.
Proof.
  destruct current_user as [user|]; [|done].
  destruct (update_invoice_cases fault payload user w)
    as [[detail Hrun] | (o & d & Ho & Hd & Hu & -> & Hrej & Hrun)].
  - rewrite Hrun. simpl. exact Hrun.
  - rewrite Hrun. cbn [snd].
    unfold update_invoice, bind, try_except, lift, on_db, raise, ret.
    rewrite Ho. unfold Store.update_one. cbn [db Store.by_id].
    assert (Hflag : Store.rejects_empty_set
                      (Store.with_collection (db w) "invoice"
                         (<[o := updates_of payload ∪ d]>
                            (Store.collection (db w) "invoice")))
                    && bool_decide (updates_of payload = ∅) = false).
    { cbn [Store.with_collection Store.rejects_empty_set].
      destruct (Store.rejects_empty_set (db w)); [|done].
      by rewrite (bool_decide_eq_false_2 _ (Hrej eq_refl)). }
    rewrite Hflag, collection_with_same, lookup_insert_eq, matches_owner.
    rewrite bool_decide_eq_true_2.
    2:{ rewrite lookup_union_r; [done|].
        apply updates_of_other_key.
        rewrite !not_elem_of_cons. split_and!; try done. apply not_elem_of_nil. }
    cbn [Store.matched_count Z.eqb files].
    rewrite (assoc_L (∪)), (idemp_L (∪)), insert_insert_eq.
    unfold Store.with_collection. cbn [Store.collections Store.rejects_empty_set].
    by rewrite insert_insert_eq.
Qed.

(** ** [list_invoices] and [export_invoices_csv] *)

Lemma elem_of_find_documents (fields : list (string * value))
    (c : gmap N document) (o : N) (d : document) :
  (o, d) ∈ find_documents fields c <->
  c !! o = Some d /\
  forallb (fun kv => bool_decide (d !! kv.1 = Some kv.2)) fields = true.
Proof.
  unfold find_documents.
  rewrite list_elem_of_In, filter_In, <- list_elem_of_In, elem_of_map_to_list.
  done.
Qed.

Lemma NoDup_fst_filter {A B : Type} (f : A * B -> bool) (l : list (A * B)) :
  NoDup l.*1 -> NoDup (List.filter f l).*1.
Proof.
  induction l as [|x l IH]; simpl; [done|].
  intros [Hx Hl]%NoDup_cons. specialize (IH Hl).
  destruct (f x); [|done]. simpl. apply NoDup_cons. split; [|done].
  intros Hin. apply Hx.
  apply list_elem_of_fmap in Hin as (y & -> & Hy).
  apply list_elem_of_fmap. exists y. split; [done|].
  apply list_elem_of_In in Hy. apply filter_In in Hy as [Hy _].
  by apply list_elem_of_In.
Qed.

Lemma find_documents_owner (user : string) (c : gmap N document) :
  NoDup (find_documents [("user_id", VStr user)] c).*1 /\
  forall o d,
    (o, d) ∈ find_documents [("user_id", VStr user)] c <->
    c !! o = Some d /\ d !! "user_id" = Some (VStr user).
Proof.
  split.
  - apply NoDup_fst_filter, NoDup_fst_map_to_list.
  - intros o d. rewrite elem_of_find_documents. simpl.
    by rewrite andb_true_r, bool_decide_eq_true.
Qed.

Lemma list_invoices_exact_docs (user : string) (w : world) :
  exists docs,
    list_invoices None (Some user) w = (inr (map invoice_summary docs), w) /\
    NoDup docs.*1 /\
    forall o d,
      (o, d) ∈ docs <->
      Store.collection (db w) "invoice" !! o = Some d /\
      d !! "user_id" = Some (VStr user).
Proof.
  exists (find_documents [("user_id", VStr user)] (Store.collection (db w) "invoice")).
  split; [done|]. apply find_documents_owner.
Qed.

(** X12: [list_invoices] answers the caller's invoices, all of them and
    nothing else, each once, and changes nothing: the answer is the summary
    of a list of stored documents with distinct identifiers, and a document
    is in that list exactly when it is an invoice whose [user_id] is the
    caller. *)
Theorem list_invoices_exact (user : string) (w : world) :
  exists docs,
    list_invoices None (Some user) w = (inr (map invoice_summary docs), w) /\
    NoDup docs.*1 /\
    forall o d,
      (o, d) ∈ docs <->
      Store.collection (db w) "invoice" !! o = Some d /\
      d !! "user_id" = Some (VStr user).
Proof.
  exists (find_documents [("user_id", VStr user)]
            (Store.collection (db w) "invoice")).
  split; [reflexivity|]. split.
  - apply NoDup_fst_filter, NoDup_fst_map_to_list.
  - intros o d. rewrite elem_of_find_documents. simpl.
    by rewrite andb_true_r, bool_decide_eq_true.
Qed.

(** What a listed invoice shows.  The summary of a stored invoice
    carries its identifier as [str] prints it; its status is the stored one,
    or "Processing" when the document has none; a field the document lacks is
    shown as null; and the summary has no key for the owner or the file
    path. *)
Lemma invoice_summary_fields (o : N) (d : document) :
  invoice_summary (o, d) !! "id" = Some (VStr (Bson.str o)) /\
  invoice_summary (o, d) !! "status"
  = Some (match d !! "status" with Some v => v | None => VStr "Processing" end) /\
  (forall k, k ∈ ["file_name"; "invoice_number"; "vendor_name"; "date"; "total_amount"] ->
             invoice_summary (o, d) !! k
             = Some (match d !! k with Some v => v | None => VNone end)) /\
  invoice_summary (o, d) !! "user_id" = None /\
  invoice_summary (o, d) !! "file_path" = None.
Proof.
  unfold invoice_summary, py_get, py_get_default. cbn [fst snd].
  split_and!.
  - by rewrite lookup_insert_eq.
  - rewrite !lookup_insert_ne by done. rewrite lookup_insert_eq.
    by destruct (d !! "status").
  - intros k Hk. rewrite !elem_of_cons in Hk.
    destruct Hk as [-> | [-> | [-> | [-> | [-> | Hk]]]]];
      [..|by apply elem_of_nil in Hk];
      rewrite ?lookup_insert_ne by done; rewrite lookup_insert_eq;
      by destruct (d !! _).
  - by rewrite !lookup_insert_ne, lookup_empty by done.
  - by rewrite !lookup_insert_ne, lookup_empty by done.
Qed.

(** *** The export *)


(** The path of a user's export. *)
Lemma export_path_eq (user : string) :
  Py.join UPLOAD_DIR ("invoices_" +:+ user +:+ ".csv")
  = "uploads/invoices_" +:+ user +:+ ".csv".
Proof. reflexivity. Qed.

Section ExportFacts.

Variable csv_text : list (list value) -> string.

(** X14: the export has the header and then one row per listed invoice.
    On the same store, [list_invoices] and [export_invoices_csv] work from
    the same documents: the text written to [uploads/invoices_<user>.csv] is
    the CSV of the header followed by one row for each document of the
    listing, so the rows after the header are as many as the listing's
    items. *)
Theorem export_rows_match_listing (user : string) (w : world) :
  exists docs,
    list_invoices None (Some user) w = (inr (map invoice_summary docs), w) /\
    (export_invoices_csv csv_text None None (Some user) w).1
    = inr {| FileResponse.path := "uploads/invoices_" +:+ user +:+ ".csv";
             FileResponse.media_type := "text/csv";
             FileResponse.filename := "invoices_" +:+ user +:+ ".csv" |} /\
    files (export_invoices_csv csv_text None None (Some user) w).2
      !! ("uploads/invoices_" +:+ user +:+ ".csv")
    = Some (csv_text (csv_header :: map csv_row docs)) /\
    length (csv_header :: map csv_row docs)
    = S (length (map invoice_summary docs)).
Proof.
  exists (find_documents [("user_id", VStr user)] (Store.collection (db w) "invoice")).
  split; [done|].
  unfold export_invoices_csv, get_documents, write_file, bind, ret.
  cbn [fst snd files]. rewrite export_path_eq.
  split; [done|]. split.
  - by rewrite lookup_insert_eq.
  - cbn [length]. by rewrite !length_map.
Qed.


End ExportFacts.


(** ** More on [create_user] *)

(** X16: a tier or a role outside the schema is not a client error here:
    the request model takes any string, the [User] schema raises inside the
    handler, and the answer is a 500 with nothing stored. *)
Theorem create_user_invalid_is_500 fault (payload : CreateUserRequest.t) (w : world) :
  CreateUserRequest.subscription_tier payload ∉ ["Free"; "Pro"]
  \/ CreateUserRequest.role payload ∉ ["admin"; "customer"] ->
  (create_user fault payload w).2 = w /\
  http_status (create_user fault payload w).1 = 500.
Proof.
  intros Hbad.
  unfold create_user, create_document, bind, lift, on_db, ret, User.validate.
  cbn [User.subscription_tier User.credits_remaining User.role].
  destruct (bool_decide (CreateUserRequest.subscription_tier payload ∈ ["Free"; "Pro"]))
    eqn:Htier; [|done].
  replace (_ <? 0) with false by (by destruct (String.eqb _ _)).
  destruct Hbad as [Hbad | Hbad].
  - by apply bool_decide_eq_true in Htier.
  - by rewrite (bool_decide_eq_false_2 _ Hbad).
Qed.

Lemma create_user_invalid_is_500_witness :
  (create_user None
     {| CreateUserRequest.name := "Eve"; CreateUserRequest.email := "eve@example.org";
        CreateUserRequest.subscription_tier := "Enterprise";
        CreateUserRequest.role := "customer" |} alice_world).2 = alice_world /\
  http_status
    (create_user None
       {| CreateUserRequest.name := "Eve"; CreateUserRequest.email := "eve@example.org";
          CreateUserRequest.subscription_tier := "Enterprise";
          CreateUserRequest.role := "customer" |} alice_world).1 = 500.
Proof.
  apply (create_user_invalid_is_500 None
           {| CreateUserRequest.name := "Eve";
              CreateUserRequest.email := "eve@example.org";
              CreateUserRequest.subscription_tier := "Enterprise";
              CreateUserRequest.role := "customer" |} alice_world).
  left. simpl. rewrite !not_elem_of_cons. split_and!; try done.
  apply not_elem_of_nil.
Defined.

(** The run of a valid registration. *)
Lemma create_user_run (payload : CreateUserRequest.t) (w : world) :
  CreateUserRequest.subscription_tier payload ∈ ["Free"; "Pro"] ->
  CreateUserRequest.role payload ∈ ["admin"; "customer"] ->
  let users := Store.collection (db w) "user" in
  let o := fresh (dom users) in
  let user :=
    User.model_dump
      {| User.name := CreateUserRequest.name payload;
         User.email := CreateUserRequest.email payload;
         User.subscription_tier := CreateUserRequest.subscription_tier payload;
         User.credits_remaining :=
           if String.eqb (CreateUserRequest.subscription_tier payload) "Free"
           then 50 else 1000;
         User.role := CreateUserRequest.role payload |} in
  create_user None payload w
  = (inr {[ "id" := VStr (Bson.str o) ]},
     {| db := Store.with_collection (db w) "user" (<[o := user]> users);
        files := files w |}).
Proof.
  intros Htier Hrole users o user.
  unfold create_user, create_document, bind, lift, on_db, ret, User.validate.
  cbn [User.subscription_tier User.credits_remaining User.role].
  rewrite (bool_decide_eq_true_2 _ Htier), (bool_decide_eq_true_2 _ Hrole).
  by replace (_ <? 0) with false by (by destruct (String.eqb _ _)).
Qed.

(** X17: the same registration sent twice makes two users: both calls
    succeed, the two stored identifiers differ, and both hold the same data
    (no uniqueness of the email is checked). *)
Theorem create_user_twice (payload : CreateUserRequest.t) (w : world) :
  CreateUserRequest.subscription_tier payload ∈ ["Free"; "Pro"] ->
  CreateUserRequest.role payload ∈ ["admin"; "customer"] ->
  exists o1 o2 w1 w2 d,
    create_user None payload w = (inr {[ "id" := VStr (Bson.str o1) ]}, w1) /\
    create_user None payload w1 = (inr {[ "id" := VStr (Bson.str o2) ]}, w2) /\
    o1 <> o2 /\
    Store.collection (db w2) "user" !! o1 = Some d /\
    Store.collection (db w2) "user" !! o2 = Some d /\
    d !! "email" = Some (VStr (CreateUserRequest.email payload)).
Proof.
  intros Htier Hrole.
  pose proof (create_user_run payload w Htier Hrole) as Hrun1. cbv zeta in Hrun1.
  eexists _, _, _, _, _. split; [exact Hrun1|].
  split; [apply (create_user_run payload _ Htier Hrole)|].
  cbn [db]. rewrite !collection_with_same.
  set (users := Store.collection (db w) "user").
  set (o1 := fresh (dom users)).
  set (o2 := fresh (dom (<[o1 := _]> users))).
  assert (Hne : o1 <> o2).
  { intros Heq. apply (is_fresh (dom (<[o1 := User.model_dump
        {| User.name := CreateUserRequest.name payload;
           User.email := CreateUserRequest.email payload;
           User.subscription_tier := CreateUserRequest.subscription_tier payload;
           User.credits_remaining :=
             if String.eqb (CreateUserRequest.subscription_tier payload) "Free"
             then 50 else 1000;
           User.role := CreateUserRequest.role payload |}]> users))).
    fold o2. rewrite <- Heq. apply elem_of_dom. rewrite lookup_insert_eq. eauto. }
  split; [exact Hne|]. split_and!.
  - rewrite lookup_insert_ne by done. by rewrite lookup_insert_eq.
  - by rewrite lookup_insert_eq.
  - unfold User.model_dump. cbn [User.email].
    by rewrite lookup_insert_ne, lookup_insert_eq by done.
Qed.

Lemma create_user_twice_witness :
  exists o1 o2 w1 w2 d,
    create_user None
      {| CreateUserRequest.name := "Bob"; CreateUserRequest.email := "bob@example.org";
         CreateUserRequest.subscription_tier := "Free";
         CreateUserRequest.role := "customer" |} alice_world
    = (inr {[ "id" := VStr (Bson.str o1) ]}, w1) /\
    create_user None
      {| CreateUserRequest.name := "Bob"; CreateUserRequest.email := "bob@example.org";
         CreateUserRequest.subscription_tier := "Free";
         CreateUserRequest.role := "customer" |} w1
    = (inr {[ "id" := VStr (Bson.str o2) ]}, w2) /\
    o1 <> o2 /\
    Store.collection (db w2) "user" !! o1 = Some d /\
    Store.collection (db w2) "user" !! o2 = Some d /\
    d !! "email" = Some (VStr "bob@example.org").
Proof.
  apply (create_user_twice
           {| CreateUserRequest.name := "Bob";
              CreateUserRequest.email := "bob@example.org";
              CreateUserRequest.subscription_tier := "Free";
              CreateUserRequest.role := "customer" |} alice_world).
  - simpl. rewrite !elem_of_cons. auto.
  - simpl. rewrite !elem_of_cons. auto.
Defined.

(** X18: [create_user] only adds.  Whatever the outcome, the files, the
    invoices and every other collection are as before, and every user that
    was stored is still stored, unchanged. *)
Theorem create_user_only_adds fault (payload : CreateUserRequest.t) (w : world) :
  let w' := (create_user fault payload w).2 in
  files w' = files w /\
  (forall name, name <> "user" ->
                Store.collection (db w') name = Store.collection (db w) name) /\
  (forall o d, Store.collection (db w) "user" !! o = Some d ->
               Store.collection (db w') "user" !! o = Some d).
Proof.
  intros w'. subst w'.
  unfold create_user, create_document, bind, lift, on_db, ret.
  destruct (User.validate _) as [e|u]; [done|].
  unfold Store.insert_one. destruct fault as [e|]; [done|].
  cbn [snd db files]. split_and!.
  - done.
  - intros name Hname. by rewrite collection_with_other.
  - intros o d Hd. rewrite collection_with_same.
    rewrite lookup_insert_ne; [done|].
    intros <-. pose proof (is_fresh (dom (Store.collection (db w) "user"))) as Hf.
    apply Hf, elem_of_dom. eauto.
Qed.

(** ** Colliding file names *)

Lemma str_of_int_inj (z1 z2 : Z) : Py.str_of_int z1 = Py.str_of_int z2 -> z1 = z2.
Proof.
  unfold Py.str_of_int. intros Heq. apply to_int_inj.
  assert (Hnorm : forall z, NilZero.int_of_string (NilZero.string_of_int (Z.to_int z))
                            = Some (Z.to_int z)).
  { intros z. apply NilZero.isi; destruct z as [|p|p]; simpl; try done;
      intros [= Hp]; by apply (Unsigned.to_uint_nonnil p). }
  pose proof (Hnorm z1) as H1. rewrite Heq, Hnorm in H1. congruence.
Qed.

Lemma append_sep_inj (c : ascii) (a b x y : string) :
  lacks c a = true -> lacks c b = true ->
  a +:+ String c x = b +:+ String c y -> a = b /\ x = y.
Proof.
  unfold lacks. revert b. induction a as [|u a IH]; intros [|v b]; simpl.
  - intros _ _ [= ->]. done.
  - intros _ [Hv _]%andb_true_iff [= <- _].
    by rewrite Ascii.eqb_refl in Hv.
  - intros [Hu _]%andb_true_iff _ [= -> _].
    by rewrite Ascii.eqb_refl in Hu.
  - intros [_ Ha]%andb_true_iff [_ Hb]%andb_true_iff [= -> Heq].
    destruct (IH b Ha Hb Heq) as [-> ->]. done.
Qed.

(** X22: two uploads are stored under the same path exactly when they have
    the same time stamp, in seconds, and the same client file name. *)
Theorem stored_path_collides_iff (now1 now2 : datetime) (name1 name2 : string) :
  stored_path now1 name1 = stored_path now2 name2 <->
  timestamp now1 = timestamp now2 /\ name1 = name2.
Proof.
  split.
  - rewrite !stored_path_eq. simpl. intros [= Heq].
    destruct (str_of_int_chars (timestamp now1)) as (x1 & s1 & Hs1 & Hc1).
    destruct (str_of_int_chars (timestamp now2)) as (x2 & s2 & Hs2 & Hc2).
    apply append_sep_inj in Heq as [Hts ->].
    + split; [by apply str_of_int_inj|done].
    + rewrite Hs1. by apply (int_chars_lack "_").
    + rewrite Hs2. by apply (int_chars_lack "_").
  - intros [Hts ->]. unfold stored_path. by rewrite Hts.
Qed.

(** ** An update, then the listing *)

(** X24: what the owner writes, the listing shows: after a successful update
    of the status, the owner's listing has the invoice, under the identifier
    as [str] prints it, with the status of the request, whatever string it
    is. *)
Theorem update_then_list (payload : UpdateInvoiceRequest.t) (user : string)
    (w : world) (o : N) (d : document) (s : string) :
  Bson.ObjectId (UpdateInvoiceRequest.invoice_id payload) = inr o ->
  Store.collection (db w) "invoice" !! o = Some d ->
  d !! "user_id" = Some (VStr user) ->
  UpdateInvoiceRequest.status payload = Some s ->
  let w1 := (update_invoice None payload (Some user) w).2 in
  exists items item,
    list_invoices None (Some user) w1 = (inr items, w1) /\
    item ∈ items /\
    item !! "id" = Some (VStr (Bson.str o)) /\
    item !! "status" = Some (VStr s).
Proof.
  intros Ho Hd Hu Hs w1.
  assert (Hpatch : updates_of payload !! "status" = Some (VStr s)).
  { rewrite updates_of_lookup. unfold requested. simpl. by rewrite Hs. }
  assert (Hne : updates_of payload <> ∅).
  { intros Hempty. by rewrite Hempty in Hpatch. }
  destruct (update_invoice_cases None payload user w)
    as [[detail Hrun] | (o' & d' & Ho' & Hd' & _ & _ & _ & Hrun)].
  - exfalso. revert Hrun.
    unfold update_invoice, bind, try_except, lift, on_db, raise, ret.
    rewrite Ho. unfold Store.update_one.
    rewrite (bool_decide_eq_false_2 _ Hne), andb_false_r. cbn [Store.by_id].
    rewrite Hd, matches_owner, (bool_decide_eq_true_2 _ Hu). simpl.
    intros H. discriminate H.
  - assert (o' = o) as -> by congruence.
    assert (d' = d) as -> by congruence.
    subst w1. rewrite Hrun. cbn [snd].
    destruct (list_invoices_exact_docs user
                {| db := Store.with_collection (db w) "invoice"
                           (<[o := updates_of payload ∪ d]>
                              (Store.collection (db w) "invoice"));
                   files := files w |}) as (docs & Hlist & _ & Hdocs).
    exists (map invoice_summary docs), (invoice_summary (o, updates_of payload ∪ d)).
    split; [exact Hlist|]. split_and!.
    + apply list_elem_of_In, in_map, list_elem_of_In, Hdocs. cbn [db].
      rewrite collection_with_same, lookup_insert_eq. split; [done|].
      rewrite lookup_union_r; [done|].
      apply updates_of_other_key.
      rewrite !not_elem_of_cons. split_and!; try done. apply not_elem_of_nil.
    + unfold invoice_summary. by rewrite lookup_insert_eq.
    + unfold invoice_summary, py_get_default. cbn [snd].
      rewrite !lookup_insert_ne by done. rewrite lookup_insert_eq.
      by rewrite (lookup_union_Some_l _ _ _ _ Hpatch).
Qed.

Lemma update_then_list_witness :
  let w1 := (update_invoice None (request_on_alice_invoice None (Some "Paid"))
               (Some "alice") alice_world).2 in
  exists items item,
    list_invoices None (Some "alice") w1 = (inr items, w1) /\
    item ∈ items /\
    item !! "id" = Some (VStr "000000000000000000000000") /\
    item !! "status" = Some (VStr "Paid").
Proof.
  apply (update_then_list (request_on_alice_invoice None (Some "Paid")) "alice"
           alice_world 0%N alice_invoice "Paid").
  - reflexivity.
  - apply alice_world_lookup.
  - apply alice_invoice_owner.
  - reflexivity.
Defined.
